(** * ezua-tutorials: the notebooks' glue code, embedded and verified

    The repository holds tutorial notebooks and Kubernetes manifests.  The
    executable logic is the Python and shell of the notebook cells:

    - [Train_and_infer_mnist.ipynb]: the mlflow version guard, the model-save
      cell that patches [mlflow.tensorflow._MODEL_SAVE_PATH], the cell that
      loads the inference-service template, overwrites one field, writes the
      result to [/tmp] and hands it to [kubectl apply], and the shell loop
      that waits for the pod;
    - the two SparkApplication manifests, which are static data;
    - [ride-sharing-example.ipynb], which only calls the Feast client
      ([fs.apply], [fs.materialize_incremental], ...): it has no logic of
      its own to embed.

    Python objects are modelled with an explicit heap, since the notebook
    mutates the dictionary returned by [yaml.safe_load] in place.  Library
    calls ([yaml.safe_load], [yaml.dump], [mlflow.tensorflow.log_model]) are
    parameters of the cells that use them. *)

From stdpp Require Import gmap strings list pretty.
From Stdlib Require Import ZArith Ascii.

Local Open Scope Z_scope.

(** ** Python values, exceptions and the kernel monad *)

Module Py.

(** A subscript [x[k]]: a string key or an integer index. *)
Inductive sub : Type :=
| Key (k : string)
| Idx (i : Z).

(** The exceptions the cells can meet; [LibraryError] stands for whatever
    a library call raises on its own account. *)
Inductive exn : Type :=
| KeyError (k : sub)
| IndexError
| TypeError
| NameError (name : string)
| FileNotFoundError (path : string)
| YAMLError
| PackageNotFoundError (name : string)
| Exception (msg : string)
| LibraryError (msg : string).

Inductive outcome (A : Type) : Type :=
| Return (a : A)
| Raise (e : exn).
Arguments Return {A} a.
Arguments Raise {A} e.

Definition obind {A B} (m : outcome A) (f : A → outcome B) : outcome B :=
  match m with
  | Return a => f a
  | Raise e => Raise e
  end.

(** Object identities. *)
Definition loc := positive.

(** Immutable scalars are values; dictionaries and lists live in the heap
    and are referred to by identity. *)
Inductive value : Type :=
| VNone
| VBool (b : bool)
| VInt (z : Z)
| VStr (s : string)
| VRef (l : loc).
Arguments VRef l%_positive.

(** A [dict] keeps insertion order and has one entry per key. *)
Inductive obj : Type :=
| ODict (items : list (string * value))
| OList (items : list value).

Abbreviation heap := (gmap loc obj).

#[global] Instance sub_eq_dec : EqDecision sub.
Proof. solve_decision. Defined.
#[global] Instance value_eq_dec : EqDecision value.
Proof. solve_decision. Defined.

Fixpoint dict_get (items : list (string * value)) (k : string) : option value :=
  match items with
  | [] => None
  | (k', v) :: rest => if decide (k' = k) then Some v else dict_get rest k
  end.

(** [d[k] = x] on a dict: the entry is replaced where it stands, or added
    at the end. *)
Fixpoint dict_set (items : list (string * value)) (k : string) (x : value)
  : list (string * value) :=
  match items with
  | [] => [(k, x)]
  | (k', v) :: rest =>
      if decide (k' = k) then (k', x) :: rest else (k', v) :: dict_set rest k x
  end.

(** [l[i]] on a list, negative indices counting from the end. *)
Definition list_get (items : list value) (i : Z) : option value :=
  let n := Z.of_nat (length items) in
  if decide (0 ≤ i) then items !! Z.to_nat i
  else if decide (0 ≤ n + i) then items !! Z.to_nat (n + i)
  else None.

(** [s[i]] on a str: the one-character string at [i]. *)
Definition str_get (s : string) (i : Z) : option string :=
  let n := Z.of_nat (String.length s) in
  let char_at (j : Z) := (fun c => String c EmptyString) <$> String.get (Z.to_nat j) s in
  if decide (0 ≤ i) then char_at i
  else if decide (0 ≤ n + i) then char_at (n + i)
  else None.

(** [v[s]] *)
Definition getitem (h : heap) (v : value) (s : sub) : outcome value :=
  match v with
  | VRef l =>
      match h !! l with
      | Some (ODict items) =>
          match s with
          | Key k =>
              match dict_get items k with
              | Some x => Return x
              | None => Raise (KeyError s)
              end
          | Idx _ => Raise (KeyError s)
          end
      | Some (OList items) =>
          match s with
          | Idx i =>
              match list_get items i with
              | Some x => Return x
              | None => Raise IndexError
              end
          | Key _ => Raise TypeError
          end
      | None => Raise TypeError
      end
  | VStr str =>
      match s with
      | Idx i =>
          match str_get str i with
          | Some c => Return (VStr c)
          | None => Raise IndexError
          end
      | Key _ => Raise TypeError
      end
  | VNone | VBool _ | VInt _ => Raise TypeError
  end.

(** [v[k] = x] for a string key [k]; the object [v] refers to is updated
    in place. *)
Definition setitem (h : heap) (v : value) (k : string) (x : value) : outcome heap :=
  match v with
  | VRef l =>
      match h !! l with
      | Some (ODict items) => Return (<[l := ODict (dict_set items k x)]> h)
      | Some (OList _) | None => Raise TypeError
      end
  | VStr _ | VNone | VBool _ | VInt _ => Raise TypeError
  end.

(** [v[s1][s2]...[sn]] *)
Fixpoint get_path (h : heap) (v : value) (p : list sub) : outcome value :=
  match p with
  | [] => Return v
  | s :: p' => obind (getitem h v s) (fun v' => get_path h v' p')
  end.

(** Computations of a notebook cell: they read and write the kernel state
    [St] and either return or raise; the state reached when an exception
    is raised stays in the kernel. *)
Definition py (St A : Type) : Type := St → outcome A * St.

Definition ret {St A} (a : A) : py St A := fun k => (Return a, k).
Definition raise {St A} (e : exn) : py St A := fun k => (Raise e, k).
Definition bind {St A B} (m : py St A) (f : A → py St B) : py St B :=
  fun k =>
    match m k with
    | (Return a, k') => f a k'
    | (Raise e, k') => (Raise e, k')
    end.
Definition lift {St A} (o : outcome A) : py St A := fun k => (o, k).
Definition gets {St A} (f : St → A) : py St A := fun k => (Return (f k), k).
Definition modify {St} (f : St → St) : py St unit := fun k => (Return tt, f k).

End Py.

Import Py.

Notation "'let!' x ':=' m 'in' k" := (Py.bind m (fun x => k))
  (at level 10, x pattern, m at level 100, k at level 200).
Notation "m ';;;' k" := (Py.bind m (fun _ => k))
  (at level 100, k at level 200, right associativity).

(** ** PyYAML, as far as the notebook uses it *)

Module Yaml.

(** [yaml.safe_load] builds the objects of a document and returns the root;
    an alias node of the document denotes the very object its anchor built.
    [yaml.dump] writes the objects reachable from a root as text.  Both are
    library code; the cells are verified for every such pair of functions. *)
Record codec : Type := Codec {
  safe_load : string → outcome (heap * value);
  dump : heap → value → string;
}.

End Yaml.

(** ** [os.path.join], as the notebook's POSIX kernel has it *)

Module os_path.

(** [b.startswith("/")] *)
Definition starts_with_sep (b : string) : bool :=
  match b with
  | String c _ => bool_decide (c = "/"%char)
  | EmptyString => false
  end.

(** [path.endswith("/")] *)
Fixpoint ends_with_sep (path : string) : bool :=
  match path with
  | EmptyString => false
  | String c EmptyString => bool_decide (c = "/"%char)
  | String _ rest => ends_with_sep rest
  end.

(** One turn of the loop of [posixpath.join]: an absolute component
    replaces what was joined so far; otherwise the component is appended,
    after a separator unless the path is empty or ends with one. *)
Definition join_step (path b : string) : string :=
  if starts_with_sep b then b
  else if bool_decide (path = EmptyString) || ends_with_sep path then path +:+ b
  else path +:+ "/" +:+ b.

(** [os.path.join(a, *p)] *)
Definition join (a : string) (p : list string) : string :=
  foldl join_step a p.

End os_path.

(** ** Train_and_infer_mnist.ipynb *)

Module Mnist.

(** What [mlflow.tensorflow.log_model] returns, as far as the notebook
    reads it. *)
Record model_info : Type := ModelInfo {
  run_id : string;
  artifact_path : string;
}.

(** The part of the kernel and of its surroundings the cells read or write. *)
Record kernel : Type := Kernel {
  (** installed distributions and their versions, as [importlib.metadata] sees them *)
  packages : gmap string string;
  (** the module global [mlflow.tensorflow._MODEL_SAVE_PATH] *)
  _MODEL_SAVE_PATH : string;
  (** the notebook's global names that are bound to strings, such as
      [saved_model_path] *)
  globals : gmap string string;
  (** the global [inferenceservice_yaml_data]; [None] while it is not bound *)
  inferenceservice_yaml_data : option (heap * value);
  (** the file system: path to content *)
  files : gmap string string;
  (** the documents handed to [kubectl apply], oldest first *)
  applied : list string;
}.

Definition set_MODEL_SAVE_PATH (p : string) (k : kernel) : kernel :=
  {| packages := packages k; _MODEL_SAVE_PATH := p;
     globals := globals k;
     inferenceservice_yaml_data := inferenceservice_yaml_data k;
     files := files k; applied := applied k |}.

Definition set_inferenceservice_yaml_data (d : heap * value) (k : kernel) : kernel :=
  {| packages := packages k; _MODEL_SAVE_PATH := _MODEL_SAVE_PATH k;
     globals := globals k;
     inferenceservice_yaml_data := Some d;
     files := files k; applied := applied k |}.

Definition set_files (f : gmap string string) (k : kernel) : kernel :=
  {| packages := packages k; _MODEL_SAVE_PATH := _MODEL_SAVE_PATH k;
     globals := globals k;
     inferenceservice_yaml_data := inferenceservice_yaml_data k;
     files := f; applied := applied k |}.

Definition set_applied (a : list string) (k : kernel) : kernel :=
  {| packages := packages k; _MODEL_SAVE_PATH := _MODEL_SAVE_PATH k;
     globals := globals k;
     inferenceservice_yaml_data := inferenceservice_yaml_data k;
     files := files k; applied := a |}.

Abbreviation cell := (py kernel unit).

(** *** The version guard (second cell) *)

(** [importlib.metadata.version(name)] *)
Definition version (name : string) : py kernel string :=
  let! pkgs := gets packages in
  match pkgs !! name with
  | Some v => ret v
  | None => raise (PackageNotFoundError name)
  end.

Definition version_guard : cell :=
  let! v := version "mlflow" in
  if decide (v ≠ "2.4.0")
  then raise (Exception "Restart the kernel and try again")
  else ret tt.

(** Running cells top to bottom: the run stops at the first cell that
    raises.  The result counts the cells that completed. *)
Fixpoint run_all (cells : list cell) (k : kernel) : nat * outcome unit * kernel :=
  match cells with
  | [] => (0%nat, Return tt, k)
  | c :: rest =>
      match c k with
      | (Return _, k') =>
          let '(n, o, k'') := run_all rest k' in (S n, o, k'')
      | (Raise e, k') => (0%nat, Raise e, k')
      end
  end.

(** *** Saving the model through mlflow *)

Section SaveModel.

(** [mlflow.tensorflow.log_model(model=..., artifact_path="model", ...)]:
    library code, which reads [_MODEL_SAVE_PATH] and may do anything to the
    kernel state, or raise. *)
Variable log_model : py kernel model_info.

(** The four lines around the call. *)
Definition save_model : py kernel model_info :=
  let! mlflow_tf_model_save_path_backup := gets _MODEL_SAVE_PATH in
  modify (fun k => set_MODEL_SAVE_PATH (_MODEL_SAVE_PATH k +:+ "/1") k) ;;;
  let! model_info := log_model in
  modify (set_MODEL_SAVE_PATH mlflow_tf_model_save_path_backup) ;;;
  ret model_info.

End SaveModel.

(** *** Creating the inference service *)

Definition TEMPLATE : string :=
  "/mnt/shared/ezua-tutorials/Data-Science/Kubeflow-GPU/gpu_mnist_inferenceservice.yaml".
Definition OUT : string := "/tmp/gpu_mnist_inferenceservice.yaml".

(** [open(path, 'r')] and reading the whole file *)
Definition open_read (path : string) : py kernel string :=
  let! fs := gets files in
  match fs !! path with
  | Some text => ret text
  | None => raise (FileNotFoundError path)
  end.

(** [open(path, 'w')] and writing [text] *)
Definition open_write (path text : string) : py kernel unit :=
  modify (fun k => set_files (<[path := text]> (files k)) k).

(** [!kubectl apply -f path]: a shell escape, which raises nothing; the
    document is handed over if the file is there. *)
Definition kubectl_apply (path : string) : py kernel unit :=
  modify (fun k =>
    match files k !! path with
    | Some text => set_applied (applied k ++ [text]) k
    | None => k
    end).

(** a global name used in an expression *)
Definition name (x : string) : py kernel string :=
  let! g := gets globals in
  match g !! x with
  | Some s => ret s
  | None => raise (NameError x)
  end.

Definition spec_predictor_tensorflow : list sub :=
  [Key "spec"; Key "predictor"; Key "tensorflow"].

(** The path of the field the cell assigns. *)
Definition storageUri_path : list sub :=
  spec_predictor_tensorflow ++ [Key "storageUri"].

(** The mapping [tensorflow] of the document is held at one place only: no
    other path from the root leads to it.  This is so in every document
    that has no alias to it or to a mapping above it. *)
Definition unshared (h : heap) (data : value) (tensorflow : loc) : Prop :=
  ∀ q, get_path h data q = Return (VRef tensorflow) → q = spec_predictor_tensorflow.

(** [data["spec"]["predictor"]["tensorflow"]["storageUri"] = uri] *)
Definition set_storageUri (h : heap) (data : value) (uri : string) : outcome heap :=
  obind (getitem h data (Key "spec")) (fun spec =>
  obind (getitem h spec (Key "predictor")) (fun predictor =>
  obind (getitem h predictor (Key "tensorflow")) (fun tensorflow =>
  setitem h tensorflow "storageUri" (VStr uri)))).

Section Inference.

Variable yaml : Yaml.codec.

Definition create_inferenceservice : cell :=
  let! text := open_read TEMPLATE in
  let! doc := lift (Yaml.safe_load yaml text) in
  modify (set_inferenceservice_yaml_data doc) ;;;
  let! uri := name "saved_model_path" in
  let! h' := lift (set_storageUri doc.1 doc.2 uri) in
  modify (set_inferenceservice_yaml_data (h', doc.2)) ;;;
  open_write OUT (Yaml.dump yaml h' doc.2) ;;;
  kubectl_apply OUT.

(** The kernel after a run that went through: the descriptor [h', data] is
    bound to [inferenceservice_yaml_data], its text is in the output file
    and has been handed to [kubectl apply]. *)
Definition applied_kernel (k : kernel) (h' : heap) (data : value) : kernel :=
  {| packages := packages k;
     _MODEL_SAVE_PATH := _MODEL_SAVE_PATH k;
     globals := globals k;
     inferenceservice_yaml_data := Some (h', data);
     files := <[OUT := Yaml.dump yaml h' data]> (files k);
     applied := applied k ++ [Yaml.dump yaml h' data] |}.

End Inference.

(** *** The cells between saving the model and creating the service *)

Definition set_globals (g : gmap string string) (k : kernel) : kernel :=
  {| packages := packages k; _MODEL_SAVE_PATH := _MODEL_SAVE_PATH k;
     globals := g;
     inferenceservice_yaml_data := inferenceservice_yaml_data k;
     files := files k; applied := applied k |}.

Definition SECRET : string :=
  "/mnt/shared/ezua-tutorials/Data-Science/Kubeflow-GPU/object_store_sa_secret.yaml".

Section Workflow.

Variable yaml : Yaml.codec.
Variable log_model : py kernel model_info.

(** [mlflow.get_run(run_id).info.artifact_uri]: a call to the tracking
    server, which may raise. *)
Variable get_run_artifact_uri : string → py kernel string.

(** [saved_model_path = os.path.join(mlflow.get_run(model_info.run_id).info.artifact_uri,
      model_info.artifact_path, "data", mlflow.tensorflow._MODEL_SAVE_PATH)]

    The arguments are evaluated from left to right: the module global is
    read after the call to the tracking server. *)
Definition get_saved_model_path (model_info : model_info) : cell :=
  let! artifact_uri := get_run_artifact_uri (run_id model_info) in
  let! save_path := gets _MODEL_SAVE_PATH in
  modify (fun k =>
    set_globals
      (<["saved_model_path" :=
           os_path.join artifact_uri [artifact_path model_info; "data"; save_path]]>
         (globals k)) k).

(** The four cells in the order of the notebook, [model_info] going from
    the first to the second: save the model, compute [saved_model_path],
    apply the service account and secret, create the inference service. *)
Definition save_and_serve : cell :=
  let! model_info := save_model log_model in
  get_saved_model_path model_info ;;;
  kubectl_apply SECRET ;;;
  create_inferenceservice yaml.

End Workflow.

(** *** Well-formed documents *)

(** [v] refers to a mapping of the heap. *)
Definition is_mapping (h : heap) (v : value) : Prop :=
  ∃ l items, v = VRef l ∧ h !! l = Some (ODict items).

(** The keys and the values an object holds. *)
Definition keys (o : obj) : list string :=
  match o with
  | ODict items => items.*1
  | OList _ => []
  end.

Definition members (o : obj) : list value :=
  match o with
  | ODict items => items.*2
  | OList items => items
  end.

(** Every [dict] of the heap has one entry per key. *)
Definition unique_keys (h : heap) : Prop :=
  map_Forall (fun _ o => NoDup (keys o)) h.

(** A reference to an object of the heap, or a scalar. *)
Definition bound_in (h : heap) (v : value) : Prop :=
  match v with
  | VRef l => is_Some (h !! l)
  | VNone | VBool _ | VInt _ | VStr _ => True
  end.

(** Every reference held by an object of the heap is to an object of the
    heap. *)
Definition closed (h : heap) : Prop :=
  map_Forall (fun _ o => Forall (bound_in h) (members o)) h.

#[global] Instance bound_in_dec h v : Decision (bound_in h v).
Proof. destruct v; apply _. Defined.

End Mnist.

(** ** The shell loop that waits for the pod *)

Module Shell.

(** Substring test. *)
Fixpoint contains (pat s : string) : bool :=
  String.prefix pat s ||
  match s with
  | EmptyString => false
  | String _ rest => contains pat rest
  end.

(** The lines of a text. *)
Fixpoint lines_from (cur : string) (s : string) : list string :=
  match s with
  | EmptyString => if decide (cur = "") then [] else [cur]
  | String c rest =>
      if decide (c = "010"%char) then cur :: lines_from "" rest
      else lines_from (cur +:+ String c "") rest
  end.
Definition lines (s : string) : list string := lines_from "" s.

(** [grep -q pat]: status 0 when some line of the input has a match; the
    pattern here is a fixed word. *)
Definition grep_q (pat text : string) : bool :=
  existsb (contains pat) (lines text).

(** [until kubectl get pods -l ... | grep -q "Running"; do sleep 10; done]

    (The cell goes on with an [echo] and one [kubectl wait ... --timeout=600s],
    single commands that are not modelled.)

    [get_pods i] is what the [i]-th run of [kubectl get pods] prints (the
    first run is number 0).  The loop has no bound of its own, so the model
    takes [fuel], the number of polls it is followed for: [None] means that
    the loop is still polling after that many.  [Some t] is the time spent
    in [sleep], in seconds. *)
Fixpoint until_running (fuel : nat) (get_pods : nat → string) (i : nat) (t : Z)
  : option Z :=
  match fuel with
  | O => None
  | S fuel' =>
      if grep_q "Running" (get_pods i) then Some t
      else until_running fuel' get_pods (S i) (t + 10)
  end.

Definition wait_for_pod (fuel : nat) (get_pods : nat → string) : option Z :=
  until_running fuel get_pods 0%nat 0.

End Shell.

(** ** The cells that read the predictions and plot them *)

Module Plot.

Definition count_input_images : Z := 10.
Definition num_col : Z := 5.

(** [int(np.ceil(count_input_images / num_col))]: the quotient [10 / 5] is
    the float [2.0]. *)
Definition num_row : Z := 2.

(** [a[i]] for an integer [i], on a list as on the first axis of an array:
    negative indices count from the end. *)
Definition item {A} (a : list A) (i : Z) : option A :=
  let n := Z.of_nat (length a) in
  if decide (0 ≤ i) then a !! Z.to_nat i
  else if decide (0 ≤ n + i) then a !! Z.to_nat (n + i)
  else None.

(** [axes[r, c]] on the array of subplots, of shape [(num_row, num_col)]:
    the position of the subplot. *)
Definition axes_item (r c : Z) : outcome (Z * Z) :=
  match item (seqZ 0 num_row) r, item (seqZ 0 num_col) c with
  | Some r', Some c' => Return (r', c')
  | _, _ => Raise IndexError
  end.

(** The calls the loop makes on a subplot. *)
Inductive event (image : Type) : Type :=
| Imshow (ax : Z * Z) (img : image)
| SetTitle (ax : Z * Z) (title : string).
Arguments Imshow {image} ax img.
Arguments SetTitle {image} ax title.

Section Cells.

Context {float image : Type}.

(** The position [np.argmax] gives for a row that has entries. *)
Variable argmax : list float → Z.

(** [np.argmax(x)]: for an empty row it raises [ValueError]. *)
Definition np_argmax (x : list float) : outcome Z :=
  match x with
  | [] => Raise (LibraryError "ValueError: attempt to get argmax of an empty sequence")
  | _ :: _ => Return (argmax x)
  end.

(** [predicted_numbers = [np.argmax(x) for x in outputs]]: the rows are
    taken in order, and the first exception ends the comprehension. *)
Fixpoint predicted_numbers (outputs : list (list float)) : outcome (list Z) :=
  match outputs with
  | [] => Return []
  | x :: rest =>
      obind (np_argmax x) (fun n =>
      obind (predicted_numbers rest) (fun ns => Return (n :: ns)))
  end.

(** The body of the loop:
    [ax = axes[i // num_col, i % num_col]],
    [ax.imshow(test_images_data[i], cmap='gray')],
    [ax.set_title('Predicted: {}'.format(predicted_numbers[i]))].
    The result is the calls made and the exception that ended the turn, if
    one did. *)
Definition show (test_images_data : list image) (predicted : list Z) (i : Z)
  : list (event image) * option exn :=
  match axes_item (i `div` num_col) (i `mod` num_col) with
  | Raise e => ([], Some e)
  | Return ax =>
      match item test_images_data i with
      | None => ([], Some IndexError)
      | Some img =>
          match item predicted i with
          | None => ([Imshow ax img], Some IndexError)
          | Some n => ([Imshow ax img; SetTitle ax ("Predicted: " +:+ pretty n)], None)
          end
      end
  end.

(** [for i in range(...)] *)
Fixpoint show_each (test_images_data : list image) (predicted : list Z)
    (range : list Z) : list (event image) * option exn :=
  match range with
  | [] => ([], None)
  | i :: rest =>
      match show test_images_data predicted i with
      | (evs, None) =>
          let '(evs', e) := show_each test_images_data predicted rest in
          (evs ++ evs', e)
      | (evs, Some e) => (evs, Some e)
      end
  end.

(** The two cells in a row, from [outputs] on: when the first raises, the
    second is not run. *)
Definition show_predictions (test_images_data : list image)
    (outputs : list (list float)) : list (event image) * option exn :=
  match predicted_numbers outputs with
  | Raise e => ([], Some e)
  | Return predicted =>
      show_each test_images_data predicted (seqZ 0 count_input_images)
  end.

(** What a turn that goes through calls, for the image and the row of the
    response at [i]. *)
Definition turn (i : Z) (img : image) (row : list float) : list (event image) :=
  [Imshow (i `div` num_col, i `mod` num_col) img;
   SetTitle (i `div` num_col, i `mod` num_col) ("Predicted: " +:+ pretty (argmax row))].

End Cells.

(** The subplot an event is about. *)
Definition subplot {image} (ev : event image) : Z * Z :=
  match ev with
  | Imshow ax _ | SetTitle ax _ => ax
  end.

Definition is_imshow {image} (ev : event image) : bool :=
  match ev with
  | Imshow _ _ => true
  | SetTitle _ _ => false
  end.

End Plot.

(** ** Reading descriptors: placeholder tokens and CPU quantities *)

Module Descriptor.

(** The scalar strings of a document, found by walking the objects from the
    root; [fuel] bounds the depth of the walk. *)
Fixpoint strings_from (fuel : nat) (h : heap) (v : value) : list string :=
  match v with
  | VStr s => [s]
  | VRef l =>
      match fuel with
      | O => []
      | S fuel' =>
          match h !! l with
          | Some (ODict items) =>
              flat_map (fun kv => strings_from fuel' h kv.2) items
          | Some (OList items) => flat_map (strings_from fuel' h) items
          | None => []
          end
      end
  | VNone | VBool _ | VInt _ => []
  end.

Definition strings (h : heap) (v : value) : list string :=
  strings_from (S (size h)) h v.

(** Placeholder tokens in the [<name>] syntax of
    [claimName: <username>-<namespace>-pvc]: the names between an opening
    and the next closing angle bracket. *)
Fixpoint scan (cur : option string) (s : string) : list string :=
  match s with
  | EmptyString => []
  | String c rest =>
      if decide (c = "<"%char) then scan (Some "") rest
      else
        match cur with
        | None => scan None rest
        | Some name =>
            if decide (c = ">"%char) then name :: scan None rest
            else scan (Some (name +:+ String c "")) rest
        end
  end.

Definition tokens (s : string) : list string := scan None s.

Definition placeholders (h : heap) (v : value) : list string :=
  flat_map tokens (strings h v).

(** CPU quantities as the manifests write them: [cores: 1],
    [coreLimit: "1"], [coreLimit: "1000m"].  The result is in millicores. *)
Definition digit (c : ascii) : option Z :=
  let n := Z.of_nat (nat_of_ascii c) in
  if decide (48 ≤ n ≤ 57) then Some (n - 48) else None.

Fixpoint quantity_from (acc : Z) (s : string) : option Z :=
  match s with
  | EmptyString => Some (1000 * acc)
  | String c rest =>
      match digit c with
      | Some d => quantity_from (10 * acc + d) rest
      | None => if decide (s = "m") then Some acc else None
      end
  end.

Definition millicores (v : value) : option Z :=
  match v with
  | VInt n => Some (1000 * n)
  | VStr (String c rest) =>
      match digit c with
      | Some d => quantity_from d rest
      | None => None
      end
  | _ => None
  end.

(** Does the quantity at [request] exceed the one at [limit]? *)
Definition exceeds (h : heap) (root : value) (request limit : list sub) : bool :=
  match get_path h root request, get_path h root limit with
  | Return r, Return l =>
      match millicores r, millicores l with
      | Some x, Some y => bool_decide (y < x)
      | _, _ => false
      end
  | _, _ => false
  end.

End Descriptor.

(** ** The SparkApplication manifests *)

Module Manifests.

(** [DataProcessTransferFts-JarLocal-3.3.1.yaml], as [yaml.safe_load] reads
    it: kind, metadata, and under [spec] the driver, the executor and the
    volumes (the Spark configuration and the arguments are left out). *)
Definition data_process_transfer : heap * value :=
  (list_to_map
     [(1%positive, ODict [("apiVersion", VStr "sparkoperator.hpe.com/v1beta2");
                          ("kind", VStr "SparkApplication");
                          ("metadata", VRef 2); ("spec", VRef 3)]);
      (2%positive, ODict [("name", VStr "data-process-transfer-demo");
                          ("namespace", VStr "spark")]);
      (3%positive, ODict [("type", VStr "Scala"); ("sparkVersion", VStr "3.3.1");
                          ("mode", VStr "cluster");
                          ("driver", VRef 4); ("executor", VRef 8);
                          ("volumes", VRef 12)]);
      (4%positive, ODict [("cores", VInt 1); ("coreLimit", VStr "1000m");
                          ("memory", VStr "512m"); ("labels", VRef 5);
                          ("volumeMounts", VRef 6)]);
      (5%positive, ODict [("version", VStr "3.3.1")]);
      (6%positive, OList [VRef 7]);
      (7%positive, ODict [("mountPath", VStr "/mounts/data/");
                          ("name", VStr "spark-data")]);
      (8%positive, ODict [("cores", VInt 1); ("instances", VInt 2);
                          ("memory", VStr "512m"); ("labels", VRef 9);
                          ("volumeMounts", VRef 10)]);
      (9%positive, ODict [("version", VStr "3.3.1")]);
      (10%positive, OList [VRef 11]);
      (11%positive, ODict [("mountPath", VStr "/mounts/data");
                           ("name", VStr "spark-data")]);
      (12%positive, OList [VRef 13]);
      (13%positive, ODict [("name", VStr "spark-data");
                           ("persistentVolumeClaim", VRef 14)]);
      (14%positive, ODict [("claimName", VStr "<username>-<namespace>-pvc")])],
   VRef 1).

(** [spark_etl_new.yaml]: the resource fields of the driver and of the
    executor.  The volume names of this file are Airflow template
    expressions, filled in by Airflow before the file is YAML. *)
Definition spark_etl : heap * value :=
  (list_to_map
     [(1%positive, ODict [("apiVersion", VStr "sparkoperator.hpe.com/v1beta2");
                          ("kind", VStr "SparkApplication");
                          ("metadata", VRef 2); ("spec", VRef 3)]);
      (2%positive, ODict [("name", VStr "spark-etl"); ("namespace", VStr "spark")]);
      (3%positive, ODict [("type", VStr "Python"); ("sparkVersion", VStr "3.3.1");
                          ("mode", VStr "cluster");
                          ("driver", VRef 4); ("executor", VRef 5)]);
      (4%positive, ODict [("cores", VInt 1); ("coreLimit", VStr "1");
                          ("memory", VStr "1g");
                          ("serviceAccount", VStr "hpe-spark")]);
      (5%positive, ODict [("cores", VInt 1); ("coreLimit", VStr "1");
                          ("memory", VStr "1g");
                          ("serviceAccount", VStr "hpe-spark");
                          ("instances", VInt 1)])],
   VRef 1).

Definition driver_cores : list sub := [Key "spec"; Key "driver"; Key "cores"].
Definition driver_coreLimit : list sub := [Key "spec"; Key "driver"; Key "coreLimit"].
Definition executor_cores : list sub := [Key "spec"; Key "executor"; Key "cores"].
Definition executor_coreLimit : list sub :=
  [Key "spec"; Key "executor"; Key "coreLimit"].

End Manifests.

(** ** Documents to run the cells on *)

Module Samples.

(** A stand-in for PyYAML: the documents it can load are listed in a table,
    and it writes objects back in flow style. *)
Fixpoint flow (fuel : nat) (h : heap) (v : value) : string :=
  match v with
  | VNone => "null"
  | VBool b => if b then "true" else "false"
  | VInt z => pretty z
  | VStr s => "'" +:+ s +:+ "'"
  | VRef l =>
      match fuel with
      | O => "..."
      | S fuel' =>
          match h !! l with
          | Some (ODict items) =>
              "{" +:+ String.concat ", "
                (map (fun kv => kv.1 +:+ ": " +:+ flow fuel' h kv.2) items) +:+ "}"
          | Some (OList items) =>
              "[" +:+ String.concat ", " (map (flow fuel' h) items) +:+ "]"
          | None => "..."
          end
      end
  end.

Fixpoint lookup_doc (table : list (string * (heap * value))) (text : string)
  : outcome (heap * value) :=
  match table with
  | [] => Raise YAMLError
  | (t, d) :: rest => if decide (t = text) then Return d else lookup_doc rest text
  end.

Definition table_codec (table : list (string * (heap * value))) : Yaml.codec :=
  {| Yaml.safe_load := lookup_doc table;
     Yaml.dump := fun h v => flow (S (size h)) h v |}.

(** An inference-service template in the shape the cell expects. *)
Definition service_text : string :=
"apiVersion: serving.kserve.io/v1beta1
kind: InferenceService
metadata:
  name: gpu-mnist-inferenceservice
spec:
  predictor:
    tensorflow:
      storageUri: ''
".

Definition service_doc : heap * value :=
  (list_to_map
     [(1%positive, ODict [("apiVersion", VStr "serving.kserve.io/v1beta1");
                          ("kind", VStr "InferenceService");
                          ("metadata", VRef 2); ("spec", VRef 3)]);
      (2%positive, ODict [("name", VStr "gpu-mnist-inferenceservice")]);
      (3%positive, ODict [("predictor", VRef 4)]);
      (4%positive, ODict [("tensorflow", VRef 5)]);
      (5%positive, ODict [("storageUri", VStr "")])],
   VRef 1).

(** The same with a volume whose claim name is still the placeholder of
    [DataProcessTransferFts-JarLocal-3.3.1.yaml]. *)
Definition volume_text : string :=
"kind: InferenceService
spec:
  predictor:
    tensorflow:
      storageUri: ''
    volumes:
      - name: spark-data
        persistentVolumeClaim:
          claimName: <username>-<namespace>-pvc
".

Definition volume_doc : heap * value :=
  (list_to_map
     [(1%positive, ODict [("kind", VStr "InferenceService"); ("spec", VRef 2)]);
      (2%positive, ODict [("predictor", VRef 3)]);
      (3%positive, ODict [("tensorflow", VRef 4); ("volumes", VRef 5)]);
      (4%positive, ODict [("storageUri", VStr "")]);
      (5%positive, OList [VRef 6]);
      (6%positive, ODict [("name", VStr "spark-data");
                          ("persistentVolumeClaim", VRef 7)]);
      (7%positive, ODict [("claimName", VStr "<username>-<namespace>-pvc")])],
   VRef 1).

(** A template that requests more CPU than its limit allows. *)
Definition greedy_text : string :=
"kind: InferenceService
spec:
  predictor:
    tensorflow:
      storageUri: ''
      resources:
        requests:
          cpu: '2'
        limits:
          cpu: '1'
".

Definition greedy_doc : heap * value :=
  (list_to_map
     [(1%positive, ODict [("kind", VStr "InferenceService"); ("spec", VRef 2)]);
      (2%positive, ODict [("predictor", VRef 3)]);
      (3%positive, ODict [("tensorflow", VRef 4)]);
      (4%positive, ODict [("storageUri", VStr ""); ("resources", VRef 5)]);
      (5%positive, ODict [("requests", VRef 6); ("limits", VRef 7)]);
      (6%positive, ODict [("cpu", VStr "2")]);
      (7%positive, ODict [("cpu", VStr "1")])],
   VRef 1).

(** A template in which an alias makes two fields one object. *)
Definition alias_text : string :=
"kind: InferenceService
spec:
  predictor:
    tensorflow: &model
      storageUri: ''
  transformer:
    tensorflow: *model
".

Definition alias_doc : heap * value :=
  (list_to_map
     [(1%positive, ODict [("kind", VStr "InferenceService"); ("spec", VRef 2)]);
      (2%positive, ODict [("predictor", VRef 3); ("transformer", VRef 5)]);
      (3%positive, ODict [("tensorflow", VRef 4)]);
      (4%positive, ODict [("storageUri", VStr "")]);
      (5%positive, ODict [("tensorflow", VRef 4)])],
   VRef 1).

(** A document without a predictor. *)
Definition bare_text : string :=
"kind: InferenceService
spec: {}
".

Definition bare_doc : heap * value :=
  (list_to_map
     [(1%positive, ODict [("kind", VStr "InferenceService"); ("spec", VRef 2)]);
      (2%positive, ODict [])],
   VRef 1).

Definition pyyaml : Yaml.codec :=
  table_codec [(service_text, service_doc); (volume_text, volume_doc);
               (greedy_text, greedy_doc); (alias_text, alias_doc);
               (bare_text, bare_doc)].

Definition model_uri : string := "s3://mlflow/1/0a1b/artifacts/model/data/tf2model".

(** A kernel in front of the cell under study, with [text] as the template
    file and [g] as the global names. *)
Definition kernel_of (text : string) (g : gmap string string) : Mnist.kernel :=
  {| Mnist.packages := {["mlflow" := "2.4.0"]};
     Mnist._MODEL_SAVE_PATH := "tf2model";
     Mnist.globals := g;
     Mnist.inferenceservice_yaml_data := None;
     Mnist.files := {[Mnist.TEMPLATE := text]};
     Mnist.applied := [] |}.

(** The kernel the notebook reaches: [saved_model_path] is bound. *)
Definition kernel_with (text : string) : Mnist.kernel :=
  kernel_of text {["saved_model_path" := model_uri]}.

(** The kernel after the cell has run once on the plain template. *)
Definition after_first_run : Mnist.kernel :=
  (Mnist.create_inferenceservice pyyaml (kernel_with service_text)).2.

(** Global names for the two placeholders of [volume_text]. *)
Definition user_context : gmap string string :=
  {["username" := "alice"; "namespace" := "spark"]}.

(** A stand-in for [log_model]: it saves under [_MODEL_SAVE_PATH] and
    returns the run it logged to. *)
Definition log_model_stub : py Mnist.kernel Mnist.model_info :=
  fun k =>
    (Return {| Mnist.run_id := "0a1b"; Mnist.artifact_path := "model" |},
     Mnist.set_files
       (<[Mnist._MODEL_SAVE_PATH k +:+ "/saved_model.pb" := "..."]> (Mnist.files k)) k).

(** What [kubectl get pods] prints while the pod is waiting, and once it
    runs. *)
Definition pending_listing : string :=
"NAME                                              READY   STATUS    RESTARTS   AGE
gpu-mnist-inferenceservice-predictor-default-0    0/2     Pending   0          5s
".

Definition running_listing : string :=
"NAME                                              READY   STATUS    RESTARTS   AGE
gpu-mnist-inferenceservice-predictor-default-0    1/2     Running   0          25s
".

(** The pod runs at the third poll. *)
Definition third_poll (i : nat) : string :=
  if decide (i < 2)%nat then pending_listing else running_listing.

(** A template whose [tensorflow] entry has no value. *)
Definition null_text : string :=
"kind: InferenceService
spec:
  predictor:
    tensorflow:
".

Definition null_doc : heap * value :=
  (list_to_map
     [(1%positive, ODict [("kind", VStr "InferenceService"); ("spec", VRef 2)]);
      (2%positive, ODict [("predictor", VRef 3)]);
      (3%positive, ODict [("tensorflow", VNone)])],
   VRef 1).

(** A template without [storageUri] under [tensorflow]. *)
Definition runtime_text : string :=
"kind: InferenceService
spec:
  predictor:
    tensorflow:
      runtimeVersion: 2.5.1
".

Definition runtime_doc : heap * value :=
  (list_to_map
     [(1%positive, ODict [("kind", VStr "InferenceService"); ("spec", VRef 2)]);
      (2%positive, ODict [("predictor", VRef 3)]);
      (3%positive, ODict [("tensorflow", VRef 4)]);
      (4%positive, ODict [("runtimeVersion", VStr "2.5.1")])],
   VRef 1).

(** The stand-in for PyYAML with these documents as well; an empty file
    loads as [None]. *)
Definition pyyaml_more : Yaml.codec :=
  table_codec [(service_text, service_doc); (null_text, null_doc);
               (runtime_text, runtime_doc); (EmptyString, (∅, VNone))].

(** A [log_model] that cannot reach the tracking server. *)
Definition log_model_down : py Mnist.kernel Mnist.model_info :=
  fun k => (Raise (LibraryError "Max retries exceeded"), k).

(** The artifact location the tracking server reports for a run. *)
Definition get_run_stub (run_id : string) : py Mnist.kernel string :=
  fun k => (Return ("s3://mlflow/1/" +:+ run_id +:+ "/artifacts"), k).

(** Stand-ins for the plot: images known by their number, integer scores,
    and the first position of the largest score. *)
Definition test_images : list nat := seq 0 10.

Fixpoint argmax_from (best at_ i : Z) (row : list Z) : Z :=
  match row with
  | [] => at_
  | x :: rest =>
      if decide (best < x) then argmax_from x i (i + 1) rest
      else argmax_from best at_ (i + 1) rest
  end.

Definition argmax_Z (row : list Z) : Z :=
  match row with
  | [] => 0
  | x :: rest => argmax_from x 0 1 rest
  end.

Definition short_response : list (list Z) :=
  [[0; 0; 0; 0; 0; 0; 0; 9; 0; 0];
   [0; 0; 8; 1; 0; 0; 0; 0; 0; 0];
   [0; 9; 0; 0; 0; 0; 0; 0; 0; 0]].

Definition cpu_request : list sub :=
  [Key "spec"; Key "predictor"; Key "tensorflow"; Key "resources";
   Key "requests"; Key "cpu"].
Definition cpu_limit : list sub :=
  [Key "spec"; Key "predictor"; Key "tensorflow"; Key "resources";
   Key "limits"; Key "cpu"].

End Samples.

(** * Properties *)

(** ** The operations on small inputs *)

Module Checks.

Example dict_set_replaces :
  dict_set [("a", VInt 1); ("b", VInt 2)] "a" (VInt 3) = [("a", VInt 3); ("b", VInt 2)].
Proof. reflexivity. Qed.

Example dict_set_appends :
  dict_set [("a", VInt 1)] "b" (VInt 2) = [("a", VInt 1); ("b", VInt 2)].
Proof. reflexivity. Qed.

Example list_get_last : list_get [VInt 1; VInt 2; VInt 3] (-1) = Some (VInt 3).
Proof. reflexivity. Qed.

Example list_get_out_of_range : list_get [VInt 1; VInt 2; VInt 3] 3 = None.
Proof. reflexivity. Qed.

Example str_get_first : str_get "spec" 0 = Some "s".
Proof. reflexivity. Qed.

Example getitem_missing_key :
  getitem Samples.bare_doc.1 (VRef 2) (Key "predictor") = Raise (KeyError (Key "predictor")).
Proof. vm_compute. reflexivity. Qed.

Example getitem_on_none : getitem ∅ VNone (Key "spec") = Raise TypeError.
Proof. reflexivity. Qed.

Example get_path_claim_name :
  get_path Manifests.data_process_transfer.1 Manifests.data_process_transfer.2
    [Key "spec"; Key "volumes"; Idx 0; Key "persistentVolumeClaim"; Key "claimName"] =
  Return (VStr "<username>-<namespace>-pvc").
Proof. vm_compute. reflexivity. Qed.

Example tokens_claim_name :
  Descriptor.tokens "<username>-<namespace>-pvc" = ["username"; "namespace"].
Proof. reflexivity. Qed.

Example tokens_none : Descriptor.tokens "kubeflow-shared-pvc" = [].
Proof. reflexivity. Qed.

Example millicores_forms :
  Descriptor.millicores (VInt 1) = Some 1000 ∧
  Descriptor.millicores (VStr "1") = Some 1000 ∧
  Descriptor.millicores (VStr "1000m") = Some 1000 ∧
  Descriptor.millicores (VStr "1g") = None.
Proof. repeat split; reflexivity. Qed.

Example grep_q_pending : Shell.grep_q "Running" Samples.pending_listing = false.
Proof. vm_compute. reflexivity. Qed.

Example grep_q_running : Shell.grep_q "Running" Samples.running_listing = true.
Proof. vm_compute. reflexivity. Qed.

End Checks.

(** ** Dictionaries, subscripts and paths *)

Module PyFacts.

Lemma dict_get_set_eq items k x : dict_get (dict_set items k x) k = Some x.
Proof.
  induction items as [|[k' v] rest IH]; simpl.
  - by rewrite decide_True.
  - destruct (decide (k' = k)) as [->|Hne]; simpl.
    + by rewrite decide_True.
    + by rewrite decide_False.
Qed.

Lemma dict_get_set_ne items k k' x :
  k ≠ k' → dict_get (dict_set items k x) k' = dict_get items k'.
Proof.
  intros Hne. induction items as [|[k0 v] rest IH]; simpl.
  - by rewrite decide_False.
  - destruct (decide (k0 = k)) as [->|Hk]; simpl.
    + by rewrite !decide_False.
    + by rewrite IH.
Qed.

(** An assignment [v[k] = x] is seen by [w[s]] only if [w] is the object
    assigned to and [s] the key. *)
Lemma getitem_setitem_other h h' v k x w s :
  setitem h v k x = Return h' →
  w ≠ v ∨ s ≠ Key k →
  getitem h' w s = getitem h w s.
Proof.
  intros Hset Hother.
  destruct v as [| | | |l]; simpl in Hset; try discriminate.
  destruct (h !! l) as [[items|items]|] eqn:Hl; try discriminate.
  injection Hset as <-.
  destruct w as [| | | |l']; simpl; try reflexivity.
  destruct (decide (l' = l)) as [->|Hne].
  - rewrite lookup_insert_eq, Hl.
    destruct s as [k'|i]; [|reflexivity].
    destruct Hother as [Hw|Hs]; [congruence|].
    rewrite dict_get_set_ne; [reflexivity|congruence].
  - by rewrite lookup_insert_ne.
Qed.

Lemma getitem_setitem_same h h' v k x :
  setitem h v k x = Return h' → getitem h' v (Key k) = Return x.
Proof.
  intros Hset.
  destruct v as [| | | |l]; simpl in Hset; try discriminate.
  destruct (h !! l) as [[items|items]|] eqn:Hl; try discriminate.
  injection Hset as <-. simpl.
  by rewrite lookup_insert_eq, dict_get_set_eq.
Qed.

Lemma get_path_app h v p q :
  get_path h v (p ++ q) = obind (get_path h v p) (fun w => get_path h w q).
Proof.
  revert v. induction p as [|s p IH]; intros v; simpl; [reflexivity|].
  destruct (getitem h v s); simpl; [apply IH|reflexivity].
Qed.

Lemma get_path_snoc h v p s :
  get_path h v (p ++ [s]) = obind (get_path h v p) (fun w => getitem h w s).
Proof.
  rewrite get_path_app. destruct (get_path h v p) as [w|e]; simpl; [|reflexivity].
  by destruct (getitem h w s).
Qed.

(** Subscripts of a string give strings: no path leads from a string to an
    object. *)
Lemma get_path_str h q : ∀ s v,
  get_path h (VStr s) q = Return v → ∃ s', v = VStr s'.
Proof.
  induction q as [|[k|i] q IH]; intros s v; simpl.
  - intros [= <-]. by eexists.
  - discriminate.
  - destruct (str_get s i) as [c|]; simpl; [apply IH|discriminate].
Qed.

(** Paths that never use the assigned key lead where they led before. *)
Lemma get_path_setitem_key_free h h' v k x root p :
  setitem h v k x = Return h' →
  Key k ∉ p →
  get_path h' root p = get_path h root p.
Proof.
  intros Hset. revert root. induction p as [|s p IH]; intros root Hp; simpl.
  - reflexivity.
  - rewrite (getitem_setitem_other _ _ _ _ _ _ _ Hset).
    + destruct (getitem h root s); simpl; [|reflexivity].
      apply IH. set_solver.
    + right. set_solver.
Qed.

(** When the assigned object is reached by one path only, every path that
    does not go through the assigned entry leads where it led before. *)
Lemma get_path_setitem_unshared h h' l k x root p0 p :
  setitem h (VRef l) k x = Return h' →
  (∀ q, get_path h root q = Return (VRef l) → q = p0) →
  ¬ (p0 ++ [Key k]) `prefix_of` p →
  get_path h' root p = get_path h root p.
Proof.
  intros Hset Hone. induction p as [|s p IH] using rev_ind; intros Hp.
  - reflexivity.
  - rewrite !get_path_snoc, IH.
    + destruct (get_path h root p) as [w|e] eqn:Hw; simpl; [|reflexivity].
      apply (getitem_setitem_other _ _ _ _ _ _ _ Hset).
      destruct (decide (w = VRef l)) as [->|Hne]; [|by left].
      right. intros ->. apply Hp. by rewrite (Hone _ Hw).
    + intros Hpre. apply Hp. by apply prefix_app_r.
Qed.

End PyFacts.

(** ** The cell that creates the inference service *)

Module InferenceFacts.

Import Mnist PyFacts.

Lemma TEMPLATE_ne_OUT : TEMPLATE ≠ OUT.
Proof. discriminate. Qed.

Lemma set_storageUri_get_path h data uri :
  set_storageUri h data uri =
  obind (get_path h data spec_predictor_tensorflow)
        (fun tensorflow => setitem h tensorflow "storageUri" (VStr uri)).
Proof.
  unfold set_storageUri, spec_predictor_tensorflow. simpl.
  destruct (getitem h data (Key "spec")) as [a|]; simpl; [|reflexivity].
  destruct (getitem h a (Key "predictor")) as [b|]; simpl; [|reflexivity].
  destruct (getitem h b (Key "tensorflow")) as [c|]; simpl; reflexivity.
Qed.

(** The cell, statement by statement. *)
Lemma create_inferenceservice_eq yaml k :
  create_inferenceservice yaml k =
  match files k !! TEMPLATE with
  | None => (Raise (FileNotFoundError TEMPLATE), k)
  | Some text =>
      match Yaml.safe_load yaml text with
      | Raise e => (Raise e, k)
      | Return doc =>
          match globals k !! "saved_model_path" with
          | None =>
              (Raise (NameError "saved_model_path"),
               set_inferenceservice_yaml_data doc k)
          | Some uri =>
              match set_storageUri doc.1 doc.2 uri with
              | Raise e => (Raise e, set_inferenceservice_yaml_data doc k)
              | Return h' => (Return tt, applied_kernel yaml k h' doc.2)
              end
          end
      end
  end.
Proof.
  cbv [create_inferenceservice bind open_read gets lift modify
       name ret raise open_write kubectl_apply].
  destruct (files k !! TEMPLATE) as [text|]; [|reflexivity].
  destruct (Yaml.safe_load yaml text) as [doc|e]; [|reflexivity]. cbn.
  destruct (globals k !! "saved_model_path") as [uri|]; [|reflexivity].
  destruct (set_storageUri doc.1 doc.2 uri) as [h'|e]; [|reflexivity]. cbn.
  by rewrite lookup_insert_eq.
Qed.

(** A run that goes through, taken apart. *)
Lemma create_inferenceservice_returns yaml k k' :
  create_inferenceservice yaml k = (Return tt, k') →
  ∃ text h data uri tensorflow items,
    files k !! TEMPLATE = Some text ∧
    Yaml.safe_load yaml text = Return (h, data) ∧
    globals k !! "saved_model_path" = Some uri ∧
    get_path h data spec_predictor_tensorflow = Return (VRef tensorflow) ∧
    h !! tensorflow = Some (ODict items) ∧
    setitem h (VRef tensorflow) "storageUri" (VStr uri) =
      Return (<[tensorflow := ODict (dict_set items "storageUri" (VStr uri))]> h) ∧
    k' = applied_kernel yaml k
           (<[tensorflow := ODict (dict_set items "storageUri" (VStr uri))]> h) data.
Proof.
  rewrite create_inferenceservice_eq.
  destruct (files k !! TEMPLATE) as [text|]; [|discriminate].
  destruct (Yaml.safe_load yaml text) as [[h data]|e] eqn:Hload; [|discriminate].
  destruct (globals k !! "saved_model_path") as [uri|]; [|discriminate]. simpl.
  rewrite set_storageUri_get_path.
  destruct (get_path h data spec_predictor_tensorflow) as [tf|e] eqn:Hp;
    simpl; [|discriminate].
  destruct tf as [| | | |l]; simpl; try discriminate.
  destruct (h !! l) as [[items|items]|] eqn:Hl; try discriminate.
  intros [= <-]. exists text, h, data, uri, l, items.
  simpl. rewrite Hl. done.
Qed.

(** The conditions under which the run goes through. *)
Lemma create_inferenceservice_goes_through yaml k text h data uri tensorflow items :
  files k !! TEMPLATE = Some text →
  Yaml.safe_load yaml text = Return (h, data) →
  globals k !! "saved_model_path" = Some uri →
  get_path h data spec_predictor_tensorflow = Return (VRef tensorflow) →
  h !! tensorflow = Some (ODict items) →
  create_inferenceservice yaml k =
    (Return tt,
     applied_kernel yaml k
       (<[tensorflow := ODict (dict_set items "storageUri" (VStr uri))]> h) data).
Proof.
  intros Hfile Hload Huri Hp Htf.
  rewrite create_inferenceservice_eq, Hfile, Hload, Huri. simpl.
  rewrite set_storageUri_get_path, Hp. simpl. rewrite Htf. reflexivity.
Qed.

(** A run that raises has written nothing and applied nothing. *)
Lemma create_inferenceservice_raises yaml k e k' :
  create_inferenceservice yaml k = (Raise e, k') →
  packages k' = packages k ∧ files k' = files k ∧ applied k' = applied k.
Proof.
  rewrite create_inferenceservice_eq.
  destruct (files k !! TEMPLATE) as [text|]; [|by intros [= <- <-]].
  destruct (Yaml.safe_load yaml text) as [doc|e']; [|by intros [= <- <-]].
  destruct (globals k !! "saved_model_path") as [uri|]; [|by intros [= <- <-]].
  destruct (set_storageUri doc.1 doc.2 uri) as [h'|e']; [discriminate|].
  by intros [= <- <-].
Qed.

End InferenceFacts.

Module Materialize.

Import Mnist PyFacts InferenceFacts.

Lemma storageUri_not_on_the_way : Key "storageUri" ∉ spec_predictor_tensorflow.
Proof.
  unfold spec_predictor_tensorflow. intros H.
  repeat (apply elem_of_cons in H as [H|H]; [discriminate|]).
  by apply elem_of_nil in H.
Qed.

(** After the assignment the field holds the assigned value, whatever the
    shape of the document. *)
Lemma get_path_storageUri h data tensorflow x h' :
  get_path h data spec_predictor_tensorflow = Return (VRef tensorflow) →
  setitem h (VRef tensorflow) "storageUri" x = Return h' →
  get_path h' data storageUri_path = Return x.
Proof.
  intros Hp Hset. unfold storageUri_path. rewrite get_path_snoc.
  rewrite (get_path_setitem_key_free _ _ _ _ _ _ _ Hset storageUri_not_on_the_way).
  rewrite Hp. exact (getitem_setitem_same _ _ _ _ _ Hset).
Qed.

(** C1 (amended): when the template file loads, [saved_model_path] is bound
    and [spec.predictor.tensorflow] is a mapping of the loaded document, the
    cell goes through: the descriptor it binds, writes and applies holds the
    value of [saved_model_path] at [spec.predictor.tensorflow.storageUri].
    That field is the only thing it substitutes: every field reached without
    a [storageUri] key, placeholder tokens included, is as in the template. *)
Theorem create_inferenceservice_sets_storageUri
    yaml k text h data uri tensorflow items :
  files k !! TEMPLATE = Some text →
  Yaml.safe_load yaml text = Return (h, data) →
  globals k !! "saved_model_path" = Some uri →
  get_path h data spec_predictor_tensorflow = Return (VRef tensorflow) →
  h !! tensorflow = Some (ODict items) →
  ∃ h' k',
    create_inferenceservice yaml k = (Return tt, k') ∧
    inferenceservice_yaml_data k' = Some (h', data) ∧
    files k' !! OUT = Some (Yaml.dump yaml h' data) ∧
    applied k' = applied k ++ [Yaml.dump yaml h' data] ∧
    get_path h' data storageUri_path = Return (VStr uri) ∧
    ∀ p, Key "storageUri" ∉ p → get_path h' data p = get_path h data p.
Proof.
  intros Hfile Hload Huri Hp Htf.
  assert (Hset : setitem h (VRef tensorflow) "storageUri" (VStr uri) =
    Return (<[tensorflow := ODict (dict_set items "storageUri" (VStr uri))]> h)).
  { simpl. by rewrite Htf. }
  eexists _, _. split.
  { exact (create_inferenceservice_goes_through _ _ _ _ _ _ _ _
             Hfile Hload Huri Hp Htf). }
  simpl. split; [reflexivity|]. split; [by rewrite lookup_insert_eq|].
  split; [reflexivity|]. split.
  - by apply (get_path_storageUri _ _ _ _ _ Hp Hset).
  - intros p Hfree. by apply (get_path_setitem_key_free _ _ _ _ _ _ _ Hset).
Qed.

(** A key missing on the way to the field, with [saved_model_path] bound. *)
Lemma create_inferenceservice_missing_key
    yaml k text h data uri pre key post l items :
  files k !! TEMPLATE = Some text →
  Yaml.safe_load yaml text = Return (h, data) →
  globals k !! "saved_model_path" = Some uri →
  spec_predictor_tensorflow = pre ++ Key key :: post →
  get_path h data pre = Return (VRef l) →
  h !! l = Some (ODict items) →
  dict_get items key = None →
  ∃ k',
    create_inferenceservice yaml k = (Raise (KeyError (Key key)), k') ∧
    files k' = files k ∧ applied k' = applied k.
Proof.
  intros Hfile Hload Huri Hsplit Hpre Hl Hkey.
  eexists. split.
  - rewrite create_inferenceservice_eq, Hfile, Hload, Huri. simpl.
    rewrite set_storageUri_get_path, Hsplit, get_path_app, Hpre. simpl.
    rewrite Hl, Hkey. simpl. reflexivity.
  - done.
Qed.

(** C2 (amended): the cell looks up no placeholder token of the template
    and has no [MissingParameter] error.  The one name it takes from its
    context is [saved_model_path].  For every template file that loads:
    when [saved_model_path] is not bound, the cell raises [NameError]
    naming [saved_model_path], whatever the template holds; when it is
    bound and the first of the keys [spec], [predictor], [tensorflow] that
    a mapping of the loaded template lacks is [key], the cell raises
    [KeyError] naming [key].  In both cases no descriptor is written or
    applied. *)
Theorem create_inferenceservice_missing_name_or_key yaml k text h data :
  files k !! TEMPLATE = Some text →
  Yaml.safe_load yaml text = Return (h, data) →
  (globals k !! "saved_model_path" = None →
   ∃ k',
     create_inferenceservice yaml k = (Raise (NameError "saved_model_path"), k') ∧
     files k' = files k ∧ applied k' = applied k) ∧
  (∀ pre key post l items,
     is_Some (globals k !! "saved_model_path") →
     spec_predictor_tensorflow = pre ++ Key key :: post →
     get_path h data pre = Return (VRef l) →
     h !! l = Some (ODict items) →
     dict_get items key = None →
     ∃ k',
       create_inferenceservice yaml k = (Raise (KeyError (Key key)), k') ∧
       files k' = files k ∧ applied k' = applied k).
Proof.
  intros Hfile Hload. split.
  - intros Hname. exists (set_inferenceservice_yaml_data (h, data) k).
    split; [|done].
    by rewrite create_inferenceservice_eq, Hfile, Hload, Hname.
  - intros pre key post l items [uri Huri] Hsplit Hpre Hl Hkey.
    exact (create_inferenceservice_missing_key _ _ _ _ _ _ _ _ _ _ _
             Hfile Hload Huri Hsplit Hpre Hl Hkey).
Qed.

(** C3 (amended): nothing checks resource quantities before submission.
    The cell goes through exactly when the template file loads,
    [saved_model_path] is bound and [spec.predictor.tensorflow] is a
    mapping; it then hands the descriptor it wrote to [kubectl apply],
    whatever requests and limits the descriptor holds. *)
Theorem create_inferenceservice_returns_iff yaml k :
  ((∃ k', create_inferenceservice yaml k = (Return tt, k')) ↔
   (∃ text h data uri tensorflow items,
      files k !! TEMPLATE = Some text ∧
      Yaml.safe_load yaml text = Return (h, data) ∧
      globals k !! "saved_model_path" = Some uri ∧
      get_path h data spec_predictor_tensorflow = Return (VRef tensorflow) ∧
      h !! tensorflow = Some (ODict items))) ∧
  (∀ k', create_inferenceservice yaml k = (Return tt, k') →
     ∃ h' data,
       inferenceservice_yaml_data k' = Some (h', data) ∧
       files k' !! OUT = Some (Yaml.dump yaml h' data) ∧
       applied k' = applied k ++ [Yaml.dump yaml h' data]).
Proof.
  split; [split|].
  - intros [k' Hrun].
    destruct (create_inferenceservice_returns _ _ _ Hrun)
      as (text & h & data & uri & tf & items & ? & ? & ? & ? & ? & _).
    by exists text, h, data, uri, tf, items.
  - intros (text & h & data & uri & tf & items & Hfile & Hload & Huri & Hp & Htf).
    eexists.
    exact (create_inferenceservice_goes_through _ _ _ _ _ _ _ _
             Hfile Hload Huri Hp Htf).
  - intros k' Hrun.
    destruct (create_inferenceservice_returns _ _ _ Hrun)
      as (text & h & data & uri & tf & items & _ & _ & _ & _ & _ & _ & ->).
    eexists _, _. simpl. split; [reflexivity|].
    split; [by rewrite lookup_insert_eq|reflexivity].
Qed.

(** C4: the descriptor is a function of the template file and of
    [saved_model_path] alone.  Two runs of the cell that find the same
    template text and the same [saved_model_path], in whatever kernel
    states otherwise, end alike: both raise the same exception or both go
    through, and then the descriptor objects are equal and the same bytes
    are in the output file and handed to [kubectl apply]. *)
Theorem create_inferenceservice_deterministic yaml ka kb :
  files ka !! TEMPLATE = files kb !! TEMPLATE →
  globals ka !! "saved_model_path" = globals kb !! "saved_model_path" →
  (create_inferenceservice yaml ka).1 = (create_inferenceservice yaml kb).1 ∧
  ((create_inferenceservice yaml ka).1 = Return tt →
   ∃ d,
     files (create_inferenceservice yaml ka).2 !! OUT = Some d ∧
     files (create_inferenceservice yaml kb).2 !! OUT = Some d ∧
     last (applied (create_inferenceservice yaml ka).2) = Some d ∧
     last (applied (create_inferenceservice yaml kb).2) = Some d ∧
     inferenceservice_yaml_data (create_inferenceservice yaml ka).2 =
     inferenceservice_yaml_data (create_inferenceservice yaml kb).2).
Proof.
  intros Hfile Huri. rewrite !create_inferenceservice_eq, <- Hfile, <- Huri.
  destruct (files ka !! TEMPLATE) as [text|]; [|by split].
  destruct (Yaml.safe_load yaml text) as [doc|e]; [|by split].
  destruct (globals ka !! "saved_model_path") as [uri|]; [|by split].
  destruct (set_storageUri doc.1 doc.2 uri) as [h'|e]; [|by split].
  split; [reflexivity|]. intros _. exists (Yaml.dump yaml h' doc.2). simpl.
  by rewrite !lookup_insert_eq, !last_snoc.
Qed.

(** C6 (amended): the cell is all-or-nothing about the one field it sets.
    A run that raises has written no file and applied nothing; a run that
    goes through has written and applied a descriptor whose
    [spec.predictor.tensorflow.storageUri] is the value of
    [saved_model_path]. *)
Theorem create_inferenceservice_all_or_nothing yaml k :
  match create_inferenceservice yaml k with
  | (Raise _, k') => files k' = files k ∧ applied k' = applied k
  | (Return _, k') =>
      ∃ uri h' data,
        globals k !! "saved_model_path" = Some uri ∧
        inferenceservice_yaml_data k' = Some (h', data) ∧
        get_path h' data storageUri_path = Return (VStr uri) ∧
        files k' = <[OUT := Yaml.dump yaml h' data]> (files k) ∧
        applied k' = applied k ++ [Yaml.dump yaml h' data]
  end.
Proof.
  destruct (create_inferenceservice yaml k) as [[[]|e] k'] eqn:Hrun.
  - destruct (create_inferenceservice_returns _ _ _ Hrun)
      as (text & h & data & uri & tf & items & _ & _ & Huri & Hp & _ & Hset & ->).
    exists uri, (<[tf := ODict (dict_set items "storageUri" (VStr uri))]> h), data.
    simpl. repeat split; try done.
    by apply (get_path_storageUri _ _ _ _ _ Hp Hset).
  - destruct (create_inferenceservice_raises _ _ _ _ Hrun) as (_ & ? & ?). done.
Qed.

(** C9 (amended): the cell does not write the template file, it writes the
    descriptor to another path and nothing else, and the descriptor holds
    the new value at [spec.predictor.tensorflow.storageUri].  Every field
    reached without a [storageUri] key is as in the loaded template; and
    when the [tensorflow] mapping is not shared through an alias of the
    document, every field other than
    [spec.predictor.tensorflow.storageUri] is as in the loaded template. *)
Theorem create_inferenceservice_frame yaml k k' :
  create_inferenceservice yaml k = (Return tt, k') →
  ∃ text h data uri h' tensorflow,
    files k !! TEMPLATE = Some text ∧
    Yaml.safe_load yaml text = Return (h, data) ∧
    globals k !! "saved_model_path" = Some uri ∧
    inferenceservice_yaml_data k' = Some (h', data) ∧
    TEMPLATE ≠ OUT ∧
    files k' !! TEMPLATE = Some text ∧
    files k' = <[OUT := Yaml.dump yaml h' data]> (files k) ∧
    get_path h data spec_predictor_tensorflow = Return (VRef tensorflow) ∧
    get_path h' data storageUri_path = Return (VStr uri) ∧
    (∀ p, Key "storageUri" ∉ p → get_path h' data p = get_path h data p) ∧
    (unshared h data tensorflow →
     ∀ p, ¬ storageUri_path `prefix_of` p →
          get_path h' data p = get_path h data p).
Proof.
  intros Hrun.
  destruct (create_inferenceservice_returns _ _ _ Hrun)
    as (text & h & data & uri & tf & items & Hfile & Hload & Huri & Hp & _ & Hset & ->).
  exists text, h, data, uri,
    (<[tf := ODict (dict_set items "storageUri" (VStr uri))]> h), tf.
  simpl. repeat split; try done.
  - by rewrite lookup_insert_ne.
  - by apply (get_path_storageUri _ _ _ _ _ Hp Hset).
  - intros p Hfree. by apply (get_path_setitem_key_free _ _ _ _ _ _ _ Hset).
  - intros Hone p Hpre.
    by apply (get_path_setitem_unshared _ _ _ _ _ _ _ _ Hset Hone).
Qed.

(** *** The cell on concrete documents *)

Import Samples.

(** C1, as stated, fails on the cell.  The template [volume_text] has the
    placeholders [username] and [namespace].  With global names for exactly
    these two the cell raises; with [saved_model_path] bound as well it goes
    through, and both placeholders are still in the descriptor. *)
Lemma placeholder_left_in_descriptor :
  Descriptor.placeholders volume_doc.1 volume_doc.2 = ["username"; "namespace"] ∧
  (create_inferenceservice pyyaml (kernel_of volume_text user_context)).1 =
    Raise (NameError "saved_model_path") ∧
  (create_inferenceservice pyyaml
     (kernel_of volume_text (<["saved_model_path" := model_uri]> user_context))).1 =
    Return tt ∧
  ∃ h' data,
    inferenceservice_yaml_data
      (create_inferenceservice pyyaml
         (kernel_of volume_text (<["saved_model_path" := model_uri]> user_context))).2 =
      Some (h', data) ∧
    Descriptor.placeholders h' data = ["username"; "namespace"].
Proof.
  split; [vm_compute; reflexivity|]. split; [vm_compute; reflexivity|].
  split; [vm_compute; reflexivity|].
  eexists _, _. split; [vm_compute; reflexivity|vm_compute; reflexivity].
Qed.

(** C2, as stated, fails on the cell.  Nothing binds the placeholder
    [username] of [volume_text], yet the cell raises nothing: it writes the
    descriptor and hands it to [kubectl apply]. *)
Lemma unbound_placeholder_not_reported :
  "username" ∈ Descriptor.placeholders volume_doc.1 volume_doc.2 ∧
  globals (kernel_with volume_text) !! "username" = None ∧
  (create_inferenceservice pyyaml (kernel_with volume_text)).1 = Return tt ∧
  ∃ d,
    files (create_inferenceservice pyyaml (kernel_with volume_text)).2 !! OUT = Some d ∧
    applied (create_inferenceservice pyyaml (kernel_with volume_text)).2 = [d].
Proof.
  split; [vm_compute; by left|]. split; [vm_compute; reflexivity|].
  split; [vm_compute; reflexivity|]. eexists. split; vm_compute; reflexivity.
Qed.

(** C3, as stated, fails on the cell.  The descriptor made from
    [greedy_text] requests two CPUs under a limit of one; the cell raises
    nothing and hands it to [kubectl apply]. *)
Lemma request_above_limit_applied :
  (create_inferenceservice pyyaml (kernel_with greedy_text)).1 = Return tt ∧
  ∃ h' data,
    inferenceservice_yaml_data
      (create_inferenceservice pyyaml (kernel_with greedy_text)).2 = Some (h', data) ∧
    Descriptor.exceeds h' data cpu_request cpu_limit = true ∧
    applied (create_inferenceservice pyyaml (kernel_with greedy_text)).2 =
      [Yaml.dump pyyaml h' data].
Proof.
  split; [vm_compute; reflexivity|].
  eexists _, _. split; [vm_compute; reflexivity|].
  split; vm_compute; reflexivity.
Qed.

(** C6, as stated, fails on the cell.  From [volume_text] it makes a
    descriptor in which [storageUri] has been filled in while the claim name
    is still the placeholder text, and this descriptor is what
    [kubectl apply] receives. *)
Lemma half_substituted_descriptor_applied :
  (create_inferenceservice pyyaml (kernel_with volume_text)).1 = Return tt ∧
  ∃ h' data,
    inferenceservice_yaml_data
      (create_inferenceservice pyyaml (kernel_with volume_text)).2 = Some (h', data) ∧
    get_path h' data storageUri_path = Return (VStr model_uri) ∧
    get_path h' data
      [Key "spec"; Key "predictor"; Key "volumes"; Idx 0;
       Key "persistentVolumeClaim"; Key "claimName"] =
      Return (VStr "<username>-<namespace>-pvc") ∧
    Descriptor.placeholders h' data = ["username"; "namespace"] ∧
    applied (create_inferenceservice pyyaml (kernel_with volume_text)).2 =
      [Yaml.dump pyyaml h' data].
Proof.
  split; [vm_compute; reflexivity|].
  eexists _, _. split; [vm_compute; reflexivity|].
  repeat split; vm_compute; reflexivity.
Qed.

(** C9, as stated, fails on the cell.  In [alias_text] the mapping under
    [spec.predictor.tensorflow] is also the one under
    [spec.transformer.tensorflow]; the assignment changes the field
    [spec.transformer.tensorflow.storageUri] too. *)
Lemma aliased_field_changes :
  Yaml.safe_load pyyaml alias_text = Return alias_doc ∧
  (create_inferenceservice pyyaml (kernel_with alias_text)).1 = Return tt ∧
  [Key "spec"; Key "transformer"; Key "tensorflow"; Key "storageUri"]
    ≠ storageUri_path ∧
  get_path alias_doc.1 alias_doc.2
    [Key "spec"; Key "transformer"; Key "tensorflow"; Key "storageUri"] =
    Return (VStr "") ∧
  ∃ h',
    inferenceservice_yaml_data
      (create_inferenceservice pyyaml (kernel_with alias_text)).2 =
      Some (h', alias_doc.2) ∧
    get_path h' alias_doc.2
      [Key "spec"; Key "transformer"; Key "tensorflow"; Key "storageUri"] =
      Return (VStr model_uri).
Proof.
  split; [vm_compute; reflexivity|]. split; [vm_compute; reflexivity|].
  split; [discriminate|]. split; [vm_compute; reflexivity|].
  eexists. split; vm_compute; reflexivity.
Qed.

(** The plain template is a tree: its [tensorflow] mapping is unshared. *)
Ltac heap_lookup H :=
  match type of H with
  | context [ @lookup _ _ _ _ ?n ?h ] =>
      let o := eval vm_compute in (h !! n) in
      change (h !! n) with o in H
  end.

Ltac walk H :=
  lazymatch type of H with
  | get_path _ (VStr _) _ = Return _ =>
      apply get_path_str in H as [? H]; discriminate H
  | get_path _ _ ?q = Return _ =>
      destruct q as [|[k|i] q];
      [ try discriminate H; try reflexivity
      | simpl in H; unfold getitem in H; try heap_lookup H; simpl in H;
        repeat case_decide; subst; simpl in H; try discriminate H; try walk H
      | simpl in H; unfold getitem in H; try heap_lookup H; simpl in H;
        try discriminate H ]
  end.

Lemma service_doc_unshared : unshared service_doc.1 service_doc.2 5%positive.
Proof.
  intros q H. unfold service_doc in H. simpl fst in H. simpl snd in H.
  walk H.
Qed.

Lemma create_inferenceservice_sets_storageUri_witness :
  files (kernel_with service_text) !! TEMPLATE = Some service_text ∧
  Yaml.safe_load pyyaml service_text = Return (service_doc.1, service_doc.2) ∧
  globals (kernel_with service_text) !! "saved_model_path" = Some model_uri ∧
  get_path service_doc.1 service_doc.2 spec_predictor_tensorflow = Return (VRef 5) ∧
  service_doc.1 !! 5%positive = Some (ODict [("storageUri", VStr "")]) ∧
  ∃ h' k',
    create_inferenceservice pyyaml (kernel_with service_text) = (Return tt, k') ∧
    inferenceservice_yaml_data k' = Some (h', service_doc.2) ∧
    files k' !! OUT = Some (Yaml.dump pyyaml h' service_doc.2) ∧
    applied k' = applied (kernel_with service_text) ++ [Yaml.dump pyyaml h' service_doc.2] ∧
    get_path h' service_doc.2 storageUri_path = Return (VStr model_uri) ∧
    ∀ p, Key "storageUri" ∉ p →
         get_path h' service_doc.2 p = get_path service_doc.1 service_doc.2 p.
Proof.
  split; [vm_compute; reflexivity|]. split; [vm_compute; reflexivity|].
  split; [vm_compute; reflexivity|]. split; [vm_compute; reflexivity|].
  split; [vm_compute; reflexivity|].
  apply (create_inferenceservice_sets_storageUri pyyaml (kernel_with service_text)
           service_text service_doc.1 service_doc.2 model_uri 5%positive
           [("storageUri", VStr "")]); vm_compute; reflexivity.
Defined.

(** The template without a predictor, in a kernel without
    [saved_model_path] and in the kernel of the notebook. *)
Lemma create_inferenceservice_missing_name_or_key_witness :
  files (kernel_of bare_text ∅) !! TEMPLATE = Some bare_text ∧
  files (kernel_with bare_text) !! TEMPLATE = Some bare_text ∧
  Yaml.safe_load pyyaml bare_text = Return (bare_doc.1, bare_doc.2) ∧
  globals (kernel_of bare_text ∅) !! "saved_model_path" = None ∧
  is_Some (globals (kernel_with bare_text) !! "saved_model_path") ∧
  get_path bare_doc.1 bare_doc.2 [Key "spec"] = Return (VRef 2) ∧
  bare_doc.1 !! 2%positive = Some (ODict []) ∧
  (∃ k',
     create_inferenceservice pyyaml (kernel_of bare_text ∅) =
       (Raise (NameError "saved_model_path"), k') ∧
     files k' = files (kernel_of bare_text ∅) ∧
     applied k' = applied (kernel_of bare_text ∅)) ∧
  (∃ k',
     create_inferenceservice pyyaml (kernel_with bare_text) =
       (Raise (KeyError (Key "predictor")), k') ∧
     files k' = files (kernel_with bare_text) ∧
     applied k' = applied (kernel_with bare_text)).
Proof.
  assert (Hfile0 : files (kernel_of bare_text ∅) !! TEMPLATE = Some bare_text)
    by (vm_compute; reflexivity).
  assert (Hfile1 : files (kernel_with bare_text) !! TEMPLATE = Some bare_text)
    by (vm_compute; reflexivity).
  assert (Hload : Yaml.safe_load pyyaml bare_text = Return (bare_doc.1, bare_doc.2))
    by (vm_compute; reflexivity).
  assert (Hnone : globals (kernel_of bare_text ∅) !! "saved_model_path" = None)
    by (vm_compute; reflexivity).
  assert (Hsome : is_Some (globals (kernel_with bare_text) !! "saved_model_path"))
    by (exists model_uri; vm_compute; reflexivity).
  assert (Hpre : get_path bare_doc.1 bare_doc.2 [Key "spec"] = Return (VRef 2))
    by (vm_compute; reflexivity).
  assert (Hl : bare_doc.1 !! 2%positive = Some (ODict []))
    by (vm_compute; reflexivity).
  split; [exact Hfile0|]. split; [exact Hfile1|]. split; [exact Hload|].
  split; [exact Hnone|]. split; [exact Hsome|]. split; [exact Hpre|].
  split; [exact Hl|]. split.
  - exact (proj1 (create_inferenceservice_missing_name_or_key pyyaml
                    (kernel_of bare_text ∅) bare_text bare_doc.1 bare_doc.2
                    Hfile0 Hload) Hnone).
  - exact (proj2 (create_inferenceservice_missing_name_or_key pyyaml
                    (kernel_with bare_text) bare_text bare_doc.1 bare_doc.2
                    Hfile1 Hload)
             [Key "spec"] "predictor" [Key "tensorflow"] 2%positive []
             Hsome eq_refl Hpre Hl eq_refl).
Defined.

(** Running the cell again, in the kernel the first run left. *)
Lemma create_inferenceservice_deterministic_witness :
  files (kernel_with service_text) !! TEMPLATE = files after_first_run !! TEMPLATE ∧
  globals (kernel_with service_text) !! "saved_model_path" =
    globals after_first_run !! "saved_model_path" ∧
  (create_inferenceservice pyyaml (kernel_with service_text)).1 =
    (create_inferenceservice pyyaml after_first_run).1 ∧
  ((create_inferenceservice pyyaml (kernel_with service_text)).1 = Return tt →
   ∃ d,
     files (create_inferenceservice pyyaml (kernel_with service_text)).2 !! OUT = Some d ∧
     files (create_inferenceservice pyyaml after_first_run).2 !! OUT = Some d ∧
     last (applied (create_inferenceservice pyyaml (kernel_with service_text)).2) = Some d ∧
     last (applied (create_inferenceservice pyyaml after_first_run).2) = Some d ∧
     inferenceservice_yaml_data (create_inferenceservice pyyaml (kernel_with service_text)).2 =
     inferenceservice_yaml_data (create_inferenceservice pyyaml after_first_run).2).
Proof.
  split; [vm_compute; reflexivity|]. split; [vm_compute; reflexivity|].
  apply (create_inferenceservice_deterministic pyyaml
           (kernel_with service_text) after_first_run); vm_compute; reflexivity.
Defined.

(** The frame of the run on the plain template, whose [tensorflow] mapping
    is unshared: only [spec.predictor.tensorflow.storageUri] differs. *)
Lemma create_inferenceservice_frame_witness :
  create_inferenceservice pyyaml (kernel_with service_text) =
    (Return tt, after_first_run) ∧
  files after_first_run !! TEMPLATE = Some service_text ∧
  ∃ h',
    inferenceservice_yaml_data after_first_run = Some (h', service_doc.2) ∧
    files after_first_run =
      <[OUT := Yaml.dump pyyaml h' service_doc.2]> (files (kernel_with service_text)) ∧
    get_path h' service_doc.2 storageUri_path = Return (VStr model_uri) ∧
    ∀ p, ¬ storageUri_path `prefix_of` p →
         get_path h' service_doc.2 p = get_path service_doc.1 service_doc.2 p.
Proof.
  assert (Hrun : create_inferenceservice pyyaml (kernel_with service_text) =
                 (Return tt, after_first_run)) by (vm_compute; reflexivity).
  split; [exact Hrun|].
  destruct (create_inferenceservice_frame pyyaml (kernel_with service_text)
              after_first_run Hrun)
    as (text & h & data & uri & h' & tf &
        Hfile & Hload & Huri & Hdata & _ & Hkept & Hfiles & Hp & Hnew & _ & Hframe).
  assert (text = service_text) as ->.
  { vm_compute in Hfile. by injection Hfile. }
  assert (h = service_doc.1 ∧ data = service_doc.2) as [-> ->].
  { vm_compute in Hload. injection Hload as <- <-. by split. }
  assert (uri = model_uri) as ->.
  { vm_compute in Huri. by injection Huri. }
  assert (tf = 5%positive) as ->.
  { vm_compute in Hp. by injection Hp. }
  split; [exact Hkept|]. exists h'.
  split; [exact Hdata|]. split; [exact Hfiles|]. split; [exact Hnew|].
  exact (Hframe service_doc_unshared).
Defined.

End Materialize.

(** ** The wait for the pod *)

Module Wait.

Import Shell.

Lemma until_running_stops get_pods n : ∀ i t,
  grep_q "Running" (get_pods (i + n)%nat) = true →
  ∃ r, until_running (S n) get_pods i t = Some r.
Proof.
  induction n as [|n IH]; intros i t Hrun; simpl.
  - rewrite Nat.add_0_r in Hrun. rewrite Hrun. by eexists.
  - destruct (grep_q "Running" (get_pods i)); [by eexists|].
    apply IH. by replace (S i + n)%nat with (i + S n)%nat by lia.
Qed.

Lemma until_running_first fuel get_pods : ∀ i t r,
  until_running fuel get_pods i t = Some r →
  ∃ n : nat,
    r = t + 10 * Z.of_nat n ∧ (n < fuel)%nat ∧
    grep_q "Running" (get_pods (i + n)%nat) = true ∧
    (∀ j, (j < n)%nat → grep_q "Running" (get_pods (i + j)%nat) = false).
Proof.
  induction fuel as [|fuel IH]; intros i t r; simpl; [discriminate|].
  destruct (grep_q "Running" (get_pods i)) eqn:Hi.
  - intros [= <-]. exists 0%nat. rewrite Nat.add_0_r.
    repeat split; [lia|lia|done|]. intros j Hj. lia.
  - intros Hrest. destruct (IH _ _ _ Hrest) as (n & -> & Hlt & Hn & Hbefore).
    exists (S n). repeat split.
    + lia.
    + lia.
    + by replace (i + S n)%nat with (S i + n)%nat by lia.
    + intros [|j] Hj.
      * by rewrite Nat.add_0_r.
      * replace (i + S j)%nat with (S i + j)%nat by lia. apply Hbefore. lia.
Qed.

Lemma until_running_more_fuel fuel fuel' get_pods : ∀ i t r,
  until_running fuel get_pods i t = Some r →
  (fuel ≤ fuel')%nat →
  until_running fuel' get_pods i t = Some r.
Proof.
  revert fuel'. induction fuel as [|fuel IH]; intros fuel' i t r; simpl;
    [discriminate|].
  intros Hrun Hle. destruct fuel' as [|fuel']; [lia|]. simpl.
  destruct (grep_q "Running" (get_pods i)); [done|].
  apply (IH fuel'); [done|lia].
Qed.

Lemma until_running_never fuel get_pods : ∀ i t,
  (∀ n, grep_q "Running" (get_pods n) = false) →
  until_running fuel get_pods i t = None.
Proof.
  induction fuel as [|fuel IH]; intros i t Hnever; simpl; [done|].
  rewrite Hnever. by apply IH.
Qed.

(** C5 (amended): the loop has no timeout.  It stops exactly when some poll
    lists a pod as Running; it has then slept ten seconds after each of the
    polls before the first such one, and following it for longer changes
    nothing.  When no poll ever shows Running it polls forever. *)
Theorem wait_for_pod_stops_iff get_pods :
  ((∃ fuel t, wait_for_pod fuel get_pods = Some t) ↔
   (∃ n, grep_q "Running" (get_pods n) = true)) ∧
  (∀ fuel t, wait_for_pod fuel get_pods = Some t →
     ∃ n : nat,
       t = 10 * Z.of_nat n ∧ (n < fuel)%nat ∧
       grep_q "Running" (get_pods n) = true ∧
       (∀ j, (j < n)%nat → grep_q "Running" (get_pods j) = false) ∧
       (∀ fuel', (fuel ≤ fuel')%nat → wait_for_pod fuel' get_pods = Some t)) ∧
  ((∀ n, grep_q "Running" (get_pods n) = false) →
   ∀ fuel, wait_for_pod fuel get_pods = None).
Proof.
  unfold wait_for_pod. split; [split|split].
  - intros (fuel & t & Hrun).
    destruct (until_running_first _ _ _ _ _ Hrun) as (n & _ & _ & Hn & _).
    by exists n.
  - intros [n Hn]. exists (S n).
    destruct (until_running_stops get_pods n 0%nat 0 Hn) as [r Hr]. by exists r.
  - intros fuel t Hrun.
    destruct (until_running_first _ _ _ _ _ Hrun) as (n & -> & Hlt & Hn & Hbefore).
    exists n. repeat split; try done.
    intros fuel' Hle. by apply (until_running_more_fuel fuel).
  - intros Hnever fuel. by apply until_running_never.
Qed.

(** C5, as stated, fails on the loop: while the pod stays Pending, no
    number of polls ends it, so there is neither a result nor a timeout. *)
Lemma wait_for_pod_never_stops :
  ¬ ∃ fuel t, wait_for_pod fuel (fun _ => Samples.pending_listing) = Some t.
Proof.
  intros (fuel & t & Hrun). unfold wait_for_pod in Hrun.
  rewrite until_running_never in Hrun; [discriminate|].
  intros _. vm_compute. reflexivity.
Qed.

Example wait_for_pod_third_poll : wait_for_pod 5 Samples.third_poll = Some 20.
Proof. vm_compute. reflexivity. Qed.

End Wait.

(** ** The version guard *)

Module Guard.

Import Mnist.

Lemma version_guard_eq k :
  version_guard k =
  match packages k !! "mlflow" with
  | None => (Raise (PackageNotFoundError "mlflow"), k)
  | Some v =>
      if decide (v = "2.4.0") then (Return tt, k)
      else (Raise (Exception "Restart the kernel and try again"), k)
  end.
Proof.
  cbv [version_guard version bind gets ret raise].
  destruct (packages k !! "mlflow") as [v|]; [|reflexivity].
  destruct (decide (v = "2.4.0")) as [->|Hne].
  - by rewrite decide_False by (by intros []).
  - by rewrite decide_True.
Qed.

(** C8: the run gets past the guard cell exactly when the installed mlflow
    is version 2.4.0, and then goes on with the cells below it in an
    unchanged kernel.  With any other installed version the cell raises the
    [Exception] asking for a restart, and with no mlflow installed the
    lookup of the version raises; either way no cell below the guard is run
    and the kernel is as it was. *)
Theorem version_guard_sound k rest :
  ((∃ k', version_guard k = (Return tt, k')) ↔
   packages k !! "mlflow" = Some "2.4.0") ∧
  (packages k !! "mlflow" = Some "2.4.0" →
   version_guard k = (Return tt, k) ∧
   run_all (version_guard :: rest) k =
     let '(n, o, k') := run_all rest k in (S n, o, k')) ∧
  (∀ v, packages k !! "mlflow" = Some v → v ≠ "2.4.0" →
   version_guard k = (Raise (Exception "Restart the kernel and try again"), k) ∧
   run_all (version_guard :: rest) k =
     (0%nat, Raise (Exception "Restart the kernel and try again"), k)) ∧
  (packages k !! "mlflow" = None →
   run_all (version_guard :: rest) k =
     (0%nat, Raise (PackageNotFoundError "mlflow"), k)).
Proof.
  simpl. rewrite version_guard_eq.
  destruct (packages k !! "mlflow") as [v|].
  - destruct (decide (v = "2.4.0")) as [->|Hne].
    + split; [split; [done|by exists k]|].
      split; [done|]. split; [by intros v [= <-] ?|done].
    + split; [split; [by intros [k' ?]|by intros [= ?]]|].
      split; [by intros [= ?]|]. split; [done|done].
  - split; [split; [by intros [k' ?]|done]|].
    split; [done|]. split; [by intros v ?|done].
Qed.

(** The guard in the kernel of the examples, and in one with a newer
    mlflow. *)
Example version_guard_passes :
  run_all [version_guard; version_guard] (Samples.kernel_with Samples.service_text) =
  (2%nat, Return tt, Samples.kernel_with Samples.service_text).
Proof. vm_compute. reflexivity. Qed.

Example version_guard_stops :
  (run_all [version_guard; version_guard]
     {| packages := {["mlflow" := "2.9.2"]}; _MODEL_SAVE_PATH := "tf2model";
        globals := ∅; inferenceservice_yaml_data := None;
        files := ∅; applied := [] |}).1 =
  (0%nat, Raise (Exception "Restart the kernel and try again")).
Proof. vm_compute. reflexivity. Qed.

End Guard.

(** ** Saving the model *)

Module Save.

Import Mnist.

Lemma save_model_eq log_model k :
  save_model log_model k =
  match log_model (set_MODEL_SAVE_PATH (_MODEL_SAVE_PATH k +:+ "/1") k) with
  | (Return info, k1) => (Return info, set_MODEL_SAVE_PATH (_MODEL_SAVE_PATH k) k1)
  | (Raise e, k1) => (Raise e, k1)
  end.
Proof.
  cbv [save_model bind gets modify ret].
  by destruct (log_model _) as [[info|e] k1].
Qed.

(** C10: [log_model] is called with ["/1"] appended to
    [_MODEL_SAVE_PATH]; when it returns, the cell returns what it returned
    and [_MODEL_SAVE_PATH] is again what it was before the cell, whatever
    [log_model] did to the kernel, while everything else is as [log_model]
    left it. *)
Theorem save_model_restores_path log_model k info k1 :
  log_model (set_MODEL_SAVE_PATH (_MODEL_SAVE_PATH k +:+ "/1") k) = (Return info, k1) →
  ∃ k',
    save_model log_model k = (Return info, k') ∧
    _MODEL_SAVE_PATH k' = _MODEL_SAVE_PATH k ∧
    packages k' = packages k1 ∧ globals k' = globals k1 ∧
    inferenceservice_yaml_data k' = inferenceservice_yaml_data k1 ∧
    files k' = files k1 ∧ applied k' = applied k1.
Proof.
  intros Hlog. eexists. split.
  - rewrite save_model_eq, Hlog. reflexivity.
  - done.
Qed.

Lemma save_model_restores_path_witness :
  Samples.log_model_stub
    (set_MODEL_SAVE_PATH
       (_MODEL_SAVE_PATH (Samples.kernel_with Samples.service_text) +:+ "/1")
       (Samples.kernel_with Samples.service_text)) =
    (Return {| run_id := "0a1b"; artifact_path := "model" |},
     {| packages := {["mlflow" := "2.4.0"]};
        _MODEL_SAVE_PATH := "tf2model/1";
        globals := {["saved_model_path" := Samples.model_uri]};
        inferenceservice_yaml_data := None;
        files := <["tf2model/1/saved_model.pb" := "..."]>
                   {[TEMPLATE := Samples.service_text]};
        applied := [] |}) ∧
  ∃ k',
    save_model Samples.log_model_stub (Samples.kernel_with Samples.service_text) =
      (Return {| run_id := "0a1b"; artifact_path := "model" |}, k') ∧
    _MODEL_SAVE_PATH k' = "tf2model" ∧
    files k' !! "tf2model/1/saved_model.pb" = Some "...".
Proof.
  split; [vm_compute; reflexivity|].
  destruct (save_model_restores_path Samples.log_model_stub
              (Samples.kernel_with Samples.service_text)
              {| run_id := "0a1b"; artifact_path := "model" |}
              {| packages := {["mlflow" := "2.4.0"]};
                 _MODEL_SAVE_PATH := "tf2model/1";
                 globals := {["saved_model_path" := Samples.model_uri]};
                 inferenceservice_yaml_data := None;
                 files := <["tf2model/1/saved_model.pb" := "..."]>
                            {[TEMPLATE := Samples.service_text]};
                 applied := [] |})
    as (k' & Hrun & Hpath & _ & _ & _ & Hfiles & _).
  - vm_compute. reflexivity.
  - exists k'. split; [exact Hrun|]. split; [exact Hpath|].
    rewrite Hfiles. vm_compute. reflexivity.
Defined.

(** When [log_model] raises, the cell ends there: the restoring assignment
    is not reached and the kernel keeps the state [log_model] left. *)
Lemma save_model_raises log_model k e k1 :
  log_model (set_MODEL_SAVE_PATH (_MODEL_SAVE_PATH k +:+ "/1") k) = (Raise e, k1) →
  save_model log_model k = (Raise e, k1).
Proof. intros Hlog. by rewrite save_model_eq, Hlog. Qed.

End Save.

(** ** The manifests as shipped *)

Module ManifestFacts.

Import Manifests.

(** The claim name of the volume is still to be filled in by the reader. *)
Example data_process_transfer_placeholders :
  Descriptor.placeholders data_process_transfer.1 data_process_transfer.2 =
  ["username"; "namespace"].
Proof. vm_compute. reflexivity. Qed.

(** In both manifests the cores asked for are within the core limit. *)
Example shipped_cores_within_limit :
  Descriptor.exceeds data_process_transfer.1 data_process_transfer.2
    driver_cores driver_coreLimit = false ∧
  Descriptor.exceeds spark_etl.1 spark_etl.2 driver_cores driver_coreLimit = false ∧
  Descriptor.exceeds spark_etl.1 spark_etl.2 executor_cores executor_coreLimit = false.
Proof. repeat split; vm_compute; reflexivity. Qed.

End ManifestFacts.

(** * Further properties of the cells *)

(** ** Strings *)

Module StringFacts.

Lemma app_cons c s t : String c s +:+ t = String c (s +:+ t).
Proof. reflexivity. Qed.

Lemma app_nil_r s : s +:+ "" = s.
Proof. induction s as [|c s IH]; [done|]. by rewrite app_cons, IH. Qed.

Lemma app_assoc s t u : (s +:+ t) +:+ u = s +:+ t +:+ u.
Proof. induction s as [|c s IH]; [done|]. by rewrite !app_cons, IH. Qed.

Lemma app_eq_nil s t : s +:+ t = "" → s = "" ∧ t = "".
Proof. destruct s; [done|]. rewrite app_cons. discriminate. Qed.

Lemma prefix_app pat post : String.prefix pat (pat +:+ post) = true.
Proof.
  induction pat as [|c pat IH]; [by destruct post|].
  rewrite app_cons. simpl. by destruct (ascii_dec c c).
Qed.

Lemma prefix_inv pat s :
  String.prefix pat s = true → ∃ post, s = pat +:+ post.
Proof.
  revert s. induction pat as [|c pat IH]; intros s; [by exists s|].
  destruct s as [|c' s]; simpl; [discriminate|].
  destruct (ascii_dec c c') as [<-|]; [|discriminate].
  intros [post ->]%IH. by exists post.
Qed.

Lemma contains_nil pat : Shell.contains pat "" = String.prefix pat "" || false.
Proof. reflexivity. Qed.

Lemma contains_cons pat c s :
  Shell.contains pat (String c s) =
  String.prefix pat (String c s) || Shell.contains pat s.
Proof. reflexivity. Qed.

(** [Shell.contains] is the substring test. *)
Lemma contains_iff pat s :
  Shell.contains pat s = true ↔ ∃ pre post, s = pre +:+ pat +:+ post.
Proof.
  split.
  - induction s as [|c s IH].
    + rewrite contains_nil, orb_true_iff.
      intros [[post Hs]%prefix_inv|]; [|discriminate]. by exists "", post.
    + rewrite contains_cons, orb_true_iff.
      intros [[post Hs]%prefix_inv|Hin]; [by exists "", post|].
      destruct (IH Hin) as (pre & post & ->). by exists (String c pre), post.
  - intros (pre & post & ->). induction pre as [|c pre IH].
    + change ("" +:+ pat +:+ post) with (pat +:+ post).
      destruct (pat +:+ post) as [|c s] eqn:Heq.
      * by rewrite contains_nil, <- Heq, prefix_app.
      * by rewrite contains_cons, <- Heq, prefix_app.
    + by rewrite app_cons, contains_cons, IH, orb_true_r.
Qed.


Lemma ends_with_sep_app p s :
  s ≠ "" → os_path.ends_with_sep (p +:+ s) = os_path.ends_with_sep s.
Proof.
  intros Hs. induction p as [|c p IH]; [done|].
  rewrite app_cons. simpl. rewrite IH.
  destruct (p +:+ s) eqn:Heq; [|done].
  by apply app_eq_nil in Heq as [_ ?].
Qed.

End StringFacts.

(** ** Assignment to a dictionary entry *)

Module DictFacts.

Lemma dict_get_None items k : dict_get items k = None ↔ k ∉ items.*1.
Proof.
  induction items as [|[k' v] rest IH]; simpl.
  - split; [intros _; apply not_elem_of_nil|done].
  - rewrite not_elem_of_cons. destruct (decide (k' = k)) as [->|Hne].
    + split; [discriminate|]. by intros [[] _].
    + rewrite IH. split; [by split|]. by intros [_ ?].
Qed.

(** The keys keep their order; a new key goes to the end. *)
Lemma dict_set_keys items k x :
  (dict_set items k x).*1 =
  match dict_get items k with
  | Some _ => items.*1
  | None => items.*1 ++ [k]
  end.
Proof.
  induction items as [|[k' v] rest IH]; [done|]. simpl.
  destruct (decide (k' = k)) as [->|Hne]; [done|].
  rewrite fmap_cons, IH. by destruct (dict_get rest k).
Qed.

Lemma dict_set_values items k x v :
  v ∈ (dict_set items k x).*2 → v = x ∨ v ∈ items.*2.
Proof.
  induction items as [|[k' w] rest IH]; simpl.
  - intros ->%list_elem_of_singleton. by left.
  - destruct (decide (k' = k)) as [->|Hne]; simpl; rewrite !elem_of_cons.
    + intros [->|?]; [by left|by right; right].
    + intros [->|Hin]; [by right; left|].
      destruct (IH Hin) as [->|?]; [by left|by right; right].
Qed.

(** The last assignment to a key wins. *)
Lemma dict_set_dict_set items k x y :
  dict_set (dict_set items k x) k y = dict_set items k y.
Proof.
  induction items as [|[k' v] rest IH]; simpl.
  - by rewrite decide_True.
  - destruct (decide (k' = k)) as [->|Hne]; simpl.
    + by rewrite decide_True.
    + by rewrite decide_False, IH.
Qed.

Lemma dict_set_NoDup items k x : NoDup items.*1 → NoDup (dict_set items k x).*1.
Proof.
  intros Hnd. rewrite dict_set_keys.
  destruct (dict_get items k) eqn:Hk; [done|].
  apply NoDup_app. split; [done|]. split; [|apply NoDup_singleton].
  intros k' Hin ->%list_elem_of_singleton. by apply dict_get_None in Hk.
Qed.

(** Subscripts that can fail on the way to the field. *)
Lemma getitem_key_raises h v k e :
  getitem h v (Key k) = Raise e → e = TypeError ∨ e = KeyError (Key k).
Proof.
  destruct v as [| | |s|l]; simpl; try (intros [= <-]; by left).
  destruct (h !! l) as [[items|items]|]; try (intros [= <-]; by left).
  destruct (dict_get items k); [discriminate|]. intros [= <-]. by right.
Qed.

Lemma get_path_keys_raises h ks : ∀ v e,
  get_path h v (Key <$> ks) = Raise e →
  e = TypeError ∨ ∃ k, k ∈ ks ∧ e = KeyError (Key k).
Proof.
  induction ks as [|k ks IH]; intros v e; simpl; [discriminate|].
  destruct (getitem h v (Key k)) as [w|e'] eqn:Hget; simpl.
  - intros [?|(k' & ? & ?)]%IH; [by left|]. right. exists k'. by rewrite elem_of_cons; auto.
  - intros [= <-]. destruct (getitem_key_raises _ _ _ _ Hget) as [->| ->]; [by left|].
    right. exists k. by rewrite elem_of_cons; auto.
Qed.

Lemma setitem_raises h v k x e : setitem h v k x = Raise e → e = TypeError.
Proof.
  destruct v as [| | | |l]; simpl; try by intros [= <-].
  destruct (h !! l) as [[items|items]|]; [discriminate|by intros [= <-]..].
Qed.

Lemma getitem_not_a_mapping h v k :
  ¬ Mnist.is_mapping h v → getitem h v (Key k) = Raise TypeError.
Proof.
  intros Hno. destruct v as [| | |s|l]; simpl; try done.
  destruct (h !! l) as [[items|items]|] eqn:Hl; try done.
  destruct Hno. by exists l, items.
Qed.

Lemma setitem_not_a_mapping h v k x :
  ¬ Mnist.is_mapping h v → setitem h v k x = Raise TypeError.
Proof.
  intros Hno. destruct v as [| | |s|l]; simpl; try done.
  destruct (h !! l) as [[items|items]|] eqn:Hl; try done.
  destruct Hno. by exists l, items.
Qed.

End DictFacts.

(** ** The assignment to [storageUri] *)

Module Assignment.

Import Mnist PyFacts InferenceFacts DictFacts.

(** The assignment, taken apart. *)
Lemma set_storageUri_returns h data uri h' :
  set_storageUri h data uri = Return h' →
  ∃ tensorflow items,
    get_path h data spec_predictor_tensorflow = Return (VRef tensorflow) ∧
    h !! tensorflow = Some (ODict items) ∧
    h' = <[tensorflow := ODict (dict_set items "storageUri" (VStr uri))]> h.
Proof.
  rewrite set_storageUri_get_path.
  destruct (get_path h data spec_predictor_tensorflow) as [[| | | |l]|e];
    simpl; try discriminate.
  destruct (h !! l) as [[items|items]|] eqn:Hl; try discriminate.
  intros [= <-]. by exists l, items.
Qed.

(** X1: the assignment changes one object, the [tensorflow] mapping, and
    neither adds nor removes an object.  In that mapping [storageUri] holds
    the new value, every other key holds what it held, and the keys keep
    their order, with [storageUri] added at the end when it was absent. *)
Theorem set_storageUri_changes_one_mapping h data uri h' :
  set_storageUri h data uri = Return h' →
  ∃ tensorflow items items',
    get_path h data spec_predictor_tensorflow = Return (VRef tensorflow) ∧
    h !! tensorflow = Some (ODict items) ∧
    h' !! tensorflow = Some (ODict items') ∧
    (∀ l, l ≠ tensorflow → h' !! l = h !! l) ∧
    dom h' = dom h ∧
    dict_get items' "storageUri" = Some (VStr uri) ∧
    (∀ key, key ≠ "storageUri" → dict_get items' key = dict_get items key) ∧
    items'.*1 = match dict_get items "storageUri" with
                | Some _ => items.*1
                | None => items.*1 ++ ["storageUri"]
                end.
Proof.
  intros (tf & items & Hp & Htf & ->)%set_storageUri_returns.
  exists tf, items, (dict_set items "storageUri" (VStr uri)).
  split; [done|]. split; [done|]. split; [by rewrite lookup_insert_eq|].
  split; [by intros l Hl; rewrite lookup_insert_ne|].
  split.
  { rewrite dom_insert_L. apply subseteq_union_1_L, singleton_subseteq_l.
    by apply elem_of_dom_2 in Htf. }
  split; [apply dict_get_set_eq|].
  split; [by intros key Hkey; apply dict_get_set_ne|].
  apply dict_set_keys.
Qed.

(** On a template without the key, the key is added after the others. *)
Lemma set_storageUri_changes_one_mapping_witness :
  set_storageUri Samples.runtime_doc.1 Samples.runtime_doc.2 Samples.model_uri =
    Return (<[4%positive := ODict [("runtimeVersion", VStr "2.5.1");
                                   ("storageUri", VStr Samples.model_uri)]]>
              Samples.runtime_doc.1) ∧
  ∃ items',
    (<[4%positive := ODict [("runtimeVersion", VStr "2.5.1");
                            ("storageUri", VStr Samples.model_uri)]]>
       Samples.runtime_doc.1) !! 4%positive = Some (ODict items') ∧
    items'.*1 = ["runtimeVersion"; "storageUri"].
Proof.
  assert (Hset : set_storageUri Samples.runtime_doc.1 Samples.runtime_doc.2
                   Samples.model_uri =
                 Return (<[4%positive := ODict [("runtimeVersion", VStr "2.5.1");
                                                ("storageUri", VStr Samples.model_uri)]]>
                           Samples.runtime_doc.1))
    by (vm_compute; reflexivity).
  split; [exact Hset|].
  destruct (set_storageUri_changes_one_mapping _ _ _ _ Hset)
    as (tf & items & items' & Hp & Htf & Htf' & _ & _ & _ & _ & Hkeys).
  assert (tf = 4%positive) as ->.
  { vm_compute in Hp. by injection Hp. }
  assert (items = [("runtimeVersion", VStr "2.5.1")]) as ->.
  { vm_compute in Htf. by injection Htf. }
  exists items'. split; [exact Htf'|]. exact Hkeys.
Defined.

(** X2: the assignment keeps documents well formed: when every mapping has
    one entry per key and every reference is to an object of the document,
    this is so after the assignment as well. *)
Theorem set_storageUri_keeps_well_formed h data uri h' :
  unique_keys h → closed h →
  set_storageUri h data uri = Return h' →
  unique_keys h' ∧ closed h'.
Proof.
  intros Huniq Hclosed (tf & items & _ & Htf & ->)%set_storageUri_returns.
  assert (Hdom : ∀ v, bound_in h v →
    bound_in (<[tf := ODict (dict_set items "storageUri" (VStr uri))]> h) v).
  { intros [| | | |l]; simpl; try done.
    intros Hl. destruct (decide (l = tf)) as [->|Hne].
    - by rewrite lookup_insert_eq.
    - by rewrite lookup_insert_ne. }
  split.
  - apply map_Forall_insert_2; [|done]. simpl.
    apply dict_set_NoDup. exact (Huniq tf _ Htf).
  - apply map_Forall_insert_2.
    + simpl. apply Forall_forall. intros v [->|Hv]%dict_set_values; [done|].
      apply Hdom. pose proof (Hclosed tf _ Htf) as Hall. simpl in Hall.
      by apply (proj1 (Forall_forall _ _) Hall).
    + intros l o Hl. apply Forall_forall. intros v Hv. apply Hdom.
      by apply (proj1 (Forall_forall _ _) (Hclosed l o Hl)).
Qed.

Lemma set_storageUri_keeps_well_formed_witness :
  unique_keys Samples.service_doc.1 ∧ closed Samples.service_doc.1 ∧
  ∃ h',
    set_storageUri Samples.service_doc.1 Samples.service_doc.2 Samples.model_uri =
      Return h' ∧
    unique_keys h' ∧ closed h'.
Proof.
  assert (Huniq : unique_keys Samples.service_doc.1).
  { refine (@bool_decide_unpack
              (map_Forall (fun (_ : positive) o => NoDup (keys o))
                 Samples.service_doc.1) _ _).
    vm_compute. exact I. }
  assert (Hclosed : closed Samples.service_doc.1).
  { refine (@bool_decide_unpack
              (map_Forall (fun (_ : positive) o =>
                 Forall (bound_in Samples.service_doc.1) (members o))
                 Samples.service_doc.1) _ _).
    vm_compute. exact I. }
  split; [exact Huniq|]. split; [exact Hclosed|].
  eexists. split; [vm_compute; reflexivity|].
  apply (set_storageUri_keeps_well_formed Samples.service_doc.1
           Samples.service_doc.2 Samples.model_uri); [exact Huniq|exact Hclosed|].
  vm_compute. reflexivity.
Defined.

(** X3: the last assignment wins: assigning a second value leaves the
    document as assigning that value alone would, so nothing of the value
    assigned first is left in it. *)
Theorem set_storageUri_overwrites h data uri1 uri2 h1 :
  set_storageUri h data uri1 = Return h1 →
  set_storageUri h1 data uri2 = set_storageUri h data uri2.
Proof.
  intros (tf & items & Hp & Htf & ->)%set_storageUri_returns.
  assert (Hset : setitem h (VRef tf) "storageUri" (VStr uri1) =
    Return (<[tf := ODict (dict_set items "storageUri" (VStr uri1))]> h)).
  { simpl. by rewrite Htf. }
  rewrite !set_storageUri_get_path.
  rewrite (get_path_setitem_key_free _ _ _ _ _ _ _ Hset
             Materialize.storageUri_not_on_the_way), Hp. simpl.
  by rewrite lookup_insert_eq, Htf, insert_insert_eq, dict_set_dict_set.
Qed.

Lemma set_storageUri_overwrites_witness :
  set_storageUri Samples.service_doc.1 Samples.service_doc.2 "s3://old" =
    Return (<[5%positive := ODict [("storageUri", VStr "s3://old")]]>
              Samples.service_doc.1) ∧
  set_storageUri
    (<[5%positive := ODict [("storageUri", VStr "s3://old")]]> Samples.service_doc.1)
    Samples.service_doc.2 Samples.model_uri =
  set_storageUri Samples.service_doc.1 Samples.service_doc.2 Samples.model_uri.
Proof.
  split; [vm_compute; reflexivity|].
  apply (set_storageUri_overwrites Samples.service_doc.1 Samples.service_doc.2
           "s3://old" Samples.model_uri).
  vm_compute. reflexivity.
Defined.

End Assignment.

(** ** The cell that creates the inference service: failures and reruns *)

Module CellEdges.

Import Mnist PyFacts InferenceFacts DictFacts.

Lemma spec_predictor_tensorflow_keys :
  spec_predictor_tensorflow = Key <$> ["spec"; "predictor"; "tensorflow"].
Proof. reflexivity. Qed.

(** X4: what the cell can raise, and the kernel it leaves then.  A missing
    template file gives [FileNotFoundError] and an exception of
    [yaml.safe_load] goes through, both in an unchanged kernel.  After the
    load the only change is that [inferenceservice_yaml_data] is bound to
    the document as loaded, and the cell raises [NameError] when
    [saved_model_path] is unbound, whatever the document, and otherwise
    [TypeError] or a [KeyError] for [spec], [predictor] or [tensorflow];
    nothing else. *)
Theorem create_inferenceservice_raises_only yaml k e k' :
  create_inferenceservice yaml k = (Raise e, k') →
  (files k !! TEMPLATE = None ∧ e = FileNotFoundError TEMPLATE ∧ k' = k) ∨
  (∃ text,
     files k !! TEMPLATE = Some text ∧
     Yaml.safe_load yaml text = Raise e ∧ k' = k) ∨
  (∃ text doc,
     files k !! TEMPLATE = Some text ∧
     Yaml.safe_load yaml text = Return doc ∧
     k' = set_inferenceservice_yaml_data doc k ∧
     (globals k !! "saved_model_path" = None ∧ e = NameError "saved_model_path" ∨
      is_Some (globals k !! "saved_model_path") ∧
      (e = TypeError ∨
       ∃ key, key ∈ ["spec"; "predictor"; "tensorflow"] ∧ e = KeyError (Key key)))).
Proof.
  rewrite create_inferenceservice_eq.
  destruct (files k !! TEMPLATE) as [text|]; [|intros [= <- <-]; by left].
  destruct (Yaml.safe_load yaml text) as [doc|e'] eqn:Hload;
    [|intros [= <- <-]; right; left; by exists text].
  destruct (globals k !! "saved_model_path") as [uri|].
  2:{ intros [= <- <-]. right; right. exists text, doc.
      split; [done|]. split; [done|]. split; [done|]. by left. }
  rewrite set_storageUri_get_path, spec_predictor_tensorflow_keys.
  destruct (get_path doc.1 doc.2 (Key <$> ["spec"; "predictor"; "tensorflow"]))
    as [tf|e'] eqn:Hp; simpl.
  - destruct (setitem doc.1 tf "storageUri" (VStr uri)) as [h'|e'] eqn:Hset;
      [discriminate|].
    intros [= <- <-]. right; right. exists text, doc.
    split; [done|]. split; [done|]. split; [done|]. right. split; [done|]. left.
    by apply setitem_raises in Hset.
  - intros [= <- <-]. right; right. exists text, doc.
    split; [done|]. split; [done|]. split; [done|]. right. split; [done|].
    by apply get_path_keys_raises in Hp.
Qed.

Lemma create_inferenceservice_raises_only_witness :
  create_inferenceservice Samples.pyyaml (Samples.kernel_with Samples.bare_text) =
    (Raise (KeyError (Key "predictor")),
     set_inferenceservice_yaml_data Samples.bare_doc
       (Samples.kernel_with Samples.bare_text)) ∧
  ((files (Samples.kernel_with Samples.bare_text) !! TEMPLATE = None ∧
    KeyError (Key "predictor") = FileNotFoundError TEMPLATE ∧
    set_inferenceservice_yaml_data Samples.bare_doc
      (Samples.kernel_with Samples.bare_text) =
    Samples.kernel_with Samples.bare_text) ∨
   (∃ text,
      files (Samples.kernel_with Samples.bare_text) !! TEMPLATE = Some text ∧
      Yaml.safe_load Samples.pyyaml text = Raise (KeyError (Key "predictor")) ∧
      set_inferenceservice_yaml_data Samples.bare_doc
        (Samples.kernel_with Samples.bare_text) =
      Samples.kernel_with Samples.bare_text) ∨
   (∃ text doc,
      files (Samples.kernel_with Samples.bare_text) !! TEMPLATE = Some text ∧
      Yaml.safe_load Samples.pyyaml text = Return doc ∧
      set_inferenceservice_yaml_data Samples.bare_doc
        (Samples.kernel_with Samples.bare_text) =
      set_inferenceservice_yaml_data doc (Samples.kernel_with Samples.bare_text) ∧
      (globals (Samples.kernel_with Samples.bare_text) !! "saved_model_path" = None ∧
       KeyError (Key "predictor") = NameError "saved_model_path" ∨
       is_Some (globals (Samples.kernel_with Samples.bare_text) !! "saved_model_path") ∧
       (KeyError (Key "predictor") = TypeError ∨
        ∃ key, key ∈ ["spec"; "predictor"; "tensorflow"] ∧
               KeyError (Key "predictor") = KeyError (Key key))))).
Proof.
  assert (Hrun : create_inferenceservice Samples.pyyaml
                   (Samples.kernel_with Samples.bare_text) =
                 (Raise (KeyError (Key "predictor")),
                  set_inferenceservice_yaml_data Samples.bare_doc
                    (Samples.kernel_with Samples.bare_text)))
    by (vm_compute; reflexivity).
  split; [exact Hrun|].
  exact (create_inferenceservice_raises_only _ _ _ _ Hrun).
Defined.

(** X5: when the template file loads and [saved_model_path] is bound, and
    the root of the document or what it holds at [spec], [spec.predictor]
    or [spec.predictor.tensorflow] is not a mapping (a scalar, a list, or
    nothing at all), the cell raises [TypeError]; it has then written no
    file and applied nothing.  (With [saved_model_path] unbound the cell
    raises [NameError] before it looks at the document.) *)
Theorem create_inferenceservice_not_a_mapping yaml k text h data uri pre post v :
  files k !! TEMPLATE = Some text →
  Yaml.safe_load yaml text = Return (h, data) →
  globals k !! "saved_model_path" = Some uri →
  spec_predictor_tensorflow = pre ++ post →
  get_path h data pre = Return v →
  ¬ is_mapping h v →
  ∃ k',
    create_inferenceservice yaml k = (Raise TypeError, k') ∧
    files k' = files k ∧ applied k' = applied k.
Proof.
  intros Hfile Hload Huri Hsplit Hpre Hno.
  exists (set_inferenceservice_yaml_data (h, data) k). split; [|done].
  rewrite create_inferenceservice_eq, Hfile, Hload, Huri. simpl.
  rewrite set_storageUri_get_path, Hsplit, get_path_app, Hpre. simpl.
  destruct post as [|s post].
  - simpl. by rewrite (setitem_not_a_mapping _ _ _ _ Hno).
  - assert (∃ key, s = Key key) as [key ->].
    { assert (Hin : s ∈ spec_predictor_tensorflow).
      { rewrite Hsplit, elem_of_app, elem_of_cons. auto. }
      unfold spec_predictor_tensorflow in Hin.
      repeat (apply elem_of_cons in Hin as [->|Hin]; [by eexists|]).
      by apply elem_of_nil in Hin. }
    simpl. by rewrite (getitem_not_a_mapping _ _ _ Hno).
Qed.

Lemma not_a_mapping_None h : ¬ is_mapping h VNone.
Proof. by intros (l & items & ? & _). Qed.

(** The template whose [tensorflow] entry is empty. *)
Lemma create_inferenceservice_not_a_mapping_witness :
  files (Samples.kernel_with Samples.null_text) !! TEMPLATE = Some Samples.null_text ∧
  Yaml.safe_load Samples.pyyaml_more Samples.null_text =
    Return (Samples.null_doc.1, Samples.null_doc.2) ∧
  globals (Samples.kernel_with Samples.null_text) !! "saved_model_path" =
    Some Samples.model_uri ∧
  spec_predictor_tensorflow = spec_predictor_tensorflow ++ [] ∧
  get_path Samples.null_doc.1 Samples.null_doc.2 spec_predictor_tensorflow =
    Return VNone ∧
  ¬ is_mapping Samples.null_doc.1 VNone ∧
  ∃ k',
    create_inferenceservice Samples.pyyaml_more
      (Samples.kernel_with Samples.null_text) = (Raise TypeError, k') ∧
    files k' = files (Samples.kernel_with Samples.null_text) ∧
    applied k' = applied (Samples.kernel_with Samples.null_text).
Proof.
  split; [vm_compute; reflexivity|]. split; [vm_compute; reflexivity|].
  split; [vm_compute; reflexivity|]. split; [reflexivity|].
  split; [vm_compute; reflexivity|]. split; [apply not_a_mapping_None|].
  apply (create_inferenceservice_not_a_mapping Samples.pyyaml_more
           (Samples.kernel_with Samples.null_text) Samples.null_text
           Samples.null_doc.1 Samples.null_doc.2 Samples.model_uri
           spec_predictor_tensorflow [] VNone);
    first [apply not_a_mapping_None | vm_compute; reflexivity].
Defined.

(** An empty template file loads as [None], which cannot be subscripted. *)
Example create_inferenceservice_empty_template :
  (create_inferenceservice Samples.pyyaml_more (Samples.kernel_with "")).1 =
  Raise TypeError.
Proof. vm_compute. reflexivity. Qed.

(** X6: running the cell again right after a run that went through goes
    through as well and changes nothing but the record of what was applied:
    the same document is handed to [kubectl apply] once more, and the files
    and the descriptor are as the first run left them. *)
Theorem create_inferenceservice_again yaml k k' :
  create_inferenceservice yaml k = (Return tt, k') →
  ∃ d,
    files k' !! OUT = Some d ∧
    last (applied k') = Some d ∧
    create_inferenceservice yaml k' = (Return tt, set_applied (applied k' ++ [d]) k').
Proof.
  intros Hrun.
  destruct (create_inferenceservice_returns _ _ _ Hrun)
    as (text & h & data & uri & tf & items & Hfile & Hload & Huri & Hp & Htf & _ & ->).
  eexists. split; [by apply lookup_insert_eq|]. split; [by apply last_snoc|].
  rewrite (create_inferenceservice_goes_through yaml _ text h data uri tf items);
    try done.
  - unfold applied_kernel, set_applied. simpl. by rewrite insert_insert_eq.
  - simpl. rewrite lookup_insert_ne; [done|]. intros Heq. by apply TEMPLATE_ne_OUT.
Qed.

Lemma create_inferenceservice_again_witness :
  create_inferenceservice Samples.pyyaml (Samples.kernel_with Samples.service_text) =
    (Return tt, Samples.after_first_run) ∧
  ∃ d,
    files Samples.after_first_run !! OUT = Some d ∧
    last (applied Samples.after_first_run) = Some d ∧
    create_inferenceservice Samples.pyyaml Samples.after_first_run =
      (Return tt,
       set_applied (applied Samples.after_first_run ++ [d]) Samples.after_first_run).
Proof.
  split; [vm_compute; reflexivity|].
  apply (create_inferenceservice_again Samples.pyyaml
           (Samples.kernel_with Samples.service_text) Samples.after_first_run).
  vm_compute. reflexivity.
Defined.

End CellEdges.

(** ** The path of the saved model *)

Module SavedModelPath.

Import Mnist PyFacts InferenceFacts StringFacts.

Lemma join_step_relative path b :
  path ≠ "" → os_path.ends_with_sep path = false →
  os_path.starts_with_sep b = false →
  os_path.join_step path b = path +:+ "/" +:+ b.
Proof.
  intros Hpath Hend Hb. unfold os_path.join_step.
  by rewrite Hb, Hend, bool_decide_false.
Qed.

Lemma ends_with_sep_slash path b :
  b ≠ "" → os_path.ends_with_sep (path +:+ "/" +:+ b) = os_path.ends_with_sep b.
Proof.
  intros Hb. rewrite ends_with_sep_app.
  - by apply (ends_with_sep_app "/").
  - by intros [? _]%app_eq_nil.
Qed.


Lemma get_saved_model_path_eq get_run info k :
  get_saved_model_path get_run info k =
  match get_run (run_id info) k with
  | (Return uri, k1) =>
      (Return tt,
       set_globals
         (<["saved_model_path" :=
              os_path.join uri [artifact_path info; "data"; _MODEL_SAVE_PATH k1]]>
            (globals k1)) k1)
  | (Raise e, k1) => (Raise e, k1)
  end.
Proof.
  cbv [get_saved_model_path bind gets modify].
  by destruct (get_run (run_id info) k) as [[uri|e] k1].
Qed.

(** X7: when the artifact location and the artifact path are not empty and
    do not end with a slash, and neither the artifact path nor
    [_MODEL_SAVE_PATH] starts with one, the cell binds [saved_model_path]
    to [<artifact_uri>/<artifact_path>/data/<_MODEL_SAVE_PATH>], and
    changes nothing else. *)
Theorem get_saved_model_path_value get_run info k uri k1 :
  get_run (run_id info) k = (Return uri, k1) →
  uri ≠ "" → os_path.ends_with_sep uri = false →
  artifact_path info ≠ "" →
  os_path.starts_with_sep (artifact_path info) = false →
  os_path.ends_with_sep (artifact_path info) = false →
  os_path.starts_with_sep (_MODEL_SAVE_PATH k1) = false →
  get_saved_model_path get_run info k =
    (Return tt,
     set_globals
       (<["saved_model_path" :=
            uri +:+ "/" +:+ artifact_path info +:+ "/data/" +:+ _MODEL_SAVE_PATH k1]>
          (globals k1)) k1).
Proof.
  intros Hrun Huri Huri_end Hap Hap_start Hap_end Hsave.
  rewrite get_saved_model_path_eq, Hrun. do 3 f_equal.
  unfold os_path.join. simpl.
  rewrite (join_step_relative uri) by done.
  rewrite (join_step_relative _ "data").
  - rewrite (join_step_relative _ (_MODEL_SAVE_PATH k1)).
    + by rewrite !app_assoc.
    + by intros [? _]%app_eq_nil%proj1%app_eq_nil.
    + by rewrite !ends_with_sep_slash.
    + done.
  - by intros [? _]%app_eq_nil.
  - by rewrite ends_with_sep_slash.
  - done.
Qed.

Lemma get_saved_model_path_value_witness :
  Samples.get_run_stub "0a1b" (Samples.kernel_of Samples.service_text ∅) =
    (Return "s3://mlflow/1/0a1b/artifacts", Samples.kernel_of Samples.service_text ∅) ∧
  get_saved_model_path Samples.get_run_stub
    {| run_id := "0a1b"; artifact_path := "model" |}
    (Samples.kernel_of Samples.service_text ∅) =
    (Return tt, Samples.kernel_with Samples.service_text).
Proof.
  split; [vm_compute; reflexivity|].
  rewrite (get_saved_model_path_value Samples.get_run_stub
             {| run_id := "0a1b"; artifact_path := "model" |}
             (Samples.kernel_of Samples.service_text ∅)
             "s3://mlflow/1/0a1b/artifacts"
             (Samples.kernel_of Samples.service_text ∅));
    try done.
Defined.

(** An absolute [_MODEL_SAVE_PATH] would drop the artifact location, and
    an empty artifact path leaves no doubled slash. *)
Example join_absolute_component :
  os_path.join "s3://mlflow/1/0a1b/artifacts" ["model"; "data"; "/tf2model"] = "/tf2model".
Proof. reflexivity. Qed.

Example join_empty_component :
  os_path.join "s3://mlflow/1/0a1b/artifacts" [""; "data"; "tf2model"] =
  "s3://mlflow/1/0a1b/artifacts/data/tf2model".
Proof. reflexivity. Qed.




(** With an empty constant the patched one is the absolute path [/1]. *)
Example join_versioned_empty :
  os_path.join "s3://mlflow/1/0a1b/artifacts" ["model"; "data"; "" +:+ "/1"] = "/1".
Proof. reflexivity. Qed.

End SavedModelPath.

(** ** From the saved model to the inference service *)

Module Workflow.

Import Mnist PyFacts InferenceFacts.

(** X9: the four cells in a row.  When [log_model] returns, the tracking
    server answers and leaves [_MODEL_SAVE_PATH] alone, and the template
    has a [spec.predictor.tensorflow] mapping, the run goes through and the
    descriptor handed to [kubectl apply] last holds at
    [spec.predictor.tensorflow.storageUri] the path joined from the
    artifact location, the artifact path, ["data"] and the value
    [_MODEL_SAVE_PATH] had before the run: the ["/1"] that [log_model] saw
    is not part of it, and [_MODEL_SAVE_PATH] is that value again. *)
Theorem save_and_serve_storageUri
    yaml log_model get_run k info k1 uri k2 text h data tensorflow items :
  log_model (set_MODEL_SAVE_PATH (_MODEL_SAVE_PATH k +:+ "/1") k) = (Return info, k1) →
  get_run (run_id info) (set_MODEL_SAVE_PATH (_MODEL_SAVE_PATH k) k1) = (Return uri, k2) →
  _MODEL_SAVE_PATH k2 = _MODEL_SAVE_PATH k →
  files k2 !! TEMPLATE = Some text →
  Yaml.safe_load yaml text = Return (h, data) →
  get_path h data spec_predictor_tensorflow = Return (VRef tensorflow) →
  h !! tensorflow = Some (ODict items) →
  ∃ h' k',
    save_and_serve yaml log_model get_run k = (Return tt, k') ∧
    inferenceservice_yaml_data k' = Some (h', data) ∧
    get_path h' data storageUri_path =
      Return (VStr (os_path.join uri [artifact_path info; "data"; _MODEL_SAVE_PATH k])) ∧
    last (applied k') = Some (Yaml.dump yaml h' data) ∧
    _MODEL_SAVE_PATH k' = _MODEL_SAVE_PATH k.
Proof.
  intros Hlog Hrun Hsame Hfile Hload Hp Htf.
  set (path := os_path.join uri [artifact_path info; "data"; _MODEL_SAVE_PATH k]).
  set (k3 := set_globals (<["saved_model_path" := path]> (globals k2)) k2).
  set (k4 := match files k3 !! SECRET with
             | Some secret => set_applied (applied k3 ++ [secret]) k3
             | None => k3
             end).
  assert (Hk4 : files k4 = files k2 ∧
                globals k4 = <["saved_model_path" := path]> (globals k2) ∧
                _MODEL_SAVE_PATH k4 = _MODEL_SAVE_PATH k2).
  { unfold k4. by destruct (files k3 !! SECRET). }
  destruct Hk4 as (Hfiles & Hglobals & Hpath).
  assert (Hcells : save_and_serve yaml log_model get_run k =
                   create_inferenceservice yaml k4).
  { unfold save_and_serve, bind at 1. rewrite Save.save_model_eq, Hlog.
    unfold bind at 1.
    rewrite SavedModelPath.get_saved_model_path_eq, Hrun, Hsame.
    reflexivity. }
  assert (Hset : setitem h (VRef tensorflow) "storageUri" (VStr path) =
    Return (<[tensorflow := ODict (dict_set items "storageUri" (VStr path))]> h)).
  { simpl. by rewrite Htf. }
  eexists _, _. split.
  { rewrite Hcells.
    apply (create_inferenceservice_goes_through yaml k4 text h data path
             tensorflow items); try done.
    - by rewrite Hfiles.
    - by rewrite Hglobals, lookup_insert_eq. }
  simpl. split; [done|]. split.
  { by apply (Materialize.get_path_storageUri _ _ _ _ _ Hp Hset). }
  split; [by apply last_snoc|]. by rewrite Hpath.
Qed.

Lemma save_and_serve_storageUri_witness :
  ∃ h' k',
    save_and_serve Samples.pyyaml Samples.log_model_stub Samples.get_run_stub
      (Samples.kernel_of Samples.service_text ∅) = (Return tt, k') ∧
    inferenceservice_yaml_data k' = Some (h', Samples.service_doc.2) ∧
    get_path h' Samples.service_doc.2 storageUri_path =
      Return (VStr (os_path.join "s3://mlflow/1/0a1b/artifacts"
                      ["model"; "data"; "tf2model"])) ∧
    last (applied k') = Some (Yaml.dump Samples.pyyaml h' Samples.service_doc.2) ∧
    _MODEL_SAVE_PATH k' = "tf2model".
Proof.
  apply (save_and_serve_storageUri Samples.pyyaml Samples.log_model_stub
           Samples.get_run_stub (Samples.kernel_of Samples.service_text ∅)
           {| run_id := "0a1b"; artifact_path := "model" |}
           (Samples.log_model_stub
              (set_MODEL_SAVE_PATH "tf2model/1"
                 (Samples.kernel_of Samples.service_text ∅))).2
           "s3://mlflow/1/0a1b/artifacts"
           (set_MODEL_SAVE_PATH "tf2model"
              (Samples.log_model_stub
                 (set_MODEL_SAVE_PATH "tf2model/1"
                    (Samples.kernel_of Samples.service_text ∅))).2)
           Samples.service_text Samples.service_doc.1 Samples.service_doc.2
           5%positive [("storageUri", VStr "")]);
    vm_compute; reflexivity.
Defined.

End Workflow.

(** ** Saving the model when [log_model] fails *)

Module SaveFailure.

Import Mnist.

(** X10: when [log_model] raises and leaves [_MODEL_SAVE_PATH] as it found
    it, the cell raises with ["/1"] still appended to the global.  Running
    the cell again from there calls [log_model] with ["/1"] appended twice,
    and when that call returns the global is set back to the value with one
    ["/1"], not to the value from before the first run. *)
Theorem save_model_failure_keeps_suffix log_model k e k1 :
  log_model (set_MODEL_SAVE_PATH (_MODEL_SAVE_PATH k +:+ "/1") k) = (Raise e, k1) →
  _MODEL_SAVE_PATH k1 = _MODEL_SAVE_PATH k +:+ "/1" →
  save_model log_model k = (Raise e, k1) ∧
  save_model log_model k1 =
    match log_model
            (set_MODEL_SAVE_PATH ((_MODEL_SAVE_PATH k +:+ "/1") +:+ "/1") k1) with
    | (Return info, k2) =>
        (Return info, set_MODEL_SAVE_PATH (_MODEL_SAVE_PATH k +:+ "/1") k2)
    | (Raise e', k2) => (Raise e', k2)
    end.
Proof.
  intros Hlog Hpath. split.
  - by rewrite Save.save_model_eq, Hlog.
  - by rewrite Save.save_model_eq, Hpath.
Qed.

(** Two runs while the tracking server is down. *)
Lemma save_model_failure_keeps_suffix_witness :
  Samples.log_model_down
    (set_MODEL_SAVE_PATH "tf2model/1" (Samples.kernel_with Samples.service_text)) =
    (Raise (LibraryError "Max retries exceeded"),
     set_MODEL_SAVE_PATH "tf2model/1" (Samples.kernel_with Samples.service_text)) ∧
  save_model Samples.log_model_down (Samples.kernel_with Samples.service_text) =
    (Raise (LibraryError "Max retries exceeded"),
     set_MODEL_SAVE_PATH "tf2model/1" (Samples.kernel_with Samples.service_text)) ∧
  save_model Samples.log_model_down
    (set_MODEL_SAVE_PATH "tf2model/1" (Samples.kernel_with Samples.service_text)) =
    (Raise (LibraryError "Max retries exceeded"),
     set_MODEL_SAVE_PATH "tf2model/1/1" (Samples.kernel_with Samples.service_text)).
Proof.
  split; [reflexivity|].
  destruct (save_model_failure_keeps_suffix Samples.log_model_down
              (Samples.kernel_with Samples.service_text)
              (LibraryError "Max retries exceeded")
              (set_MODEL_SAVE_PATH "tf2model/1"
                 (Samples.kernel_with Samples.service_text)))
    as [Hfirst Hagain]; [reflexivity|reflexivity|].
  split; [exact Hfirst|]. rewrite Hagain. reflexivity.
Defined.

End SaveFailure.

(** ** When the wait loop lets go *)

Module WaitExit.

Import Shell StringFacts.

(** X11: the loop ends at a poll without sleeping exactly when the listing
    of that poll has a line in which the text [Running] occurs, whatever
    the other lines say. *)
Theorem until_running_lets_go get_pods fuel i t :
  until_running (S fuel) get_pods i t = Some t ↔
  ∃ line pre post,
    line ∈ lines (get_pods i) ∧ line = pre +:+ "Running" +:+ post.
Proof.
  simpl. split.
  - destruct (grep_q "Running" (get_pods i)) eqn:Hgrep.
    + intros _. apply existsb_exists in Hgrep as (line & Hin & Hc).
      apply contains_iff in Hc as (pre & post & ->).
      exists (pre +:+ "Running" +:+ post), pre, post.
      split; [by apply list_elem_of_In|done].
    + intros Hlater.
      destruct (Wait.until_running_first _ _ _ _ _ Hlater) as (n & Ht & _). lia.
  - intros (line & pre & post & Hin & ->).
    assert (grep_q "Running" (get_pods i) = true) as ->; [|done].
    apply existsb_exists. exists (pre +:+ "Running" +:+ post).
    split; [by apply list_elem_of_In|]. apply contains_iff. by exists pre, post.
Qed.

(** One pod runs while another is still pending: the loop lets go. *)
Example until_running_one_of_two :
  wait_for_pod 1 (fun _ =>
"NAME                                              READY   STATUS    RESTARTS   AGE
gpu-mnist-inferenceservice-predictor-default-0    0/2     Pending   0          5s
gpu-mnist-inferenceservice-predictor-default-1    2/2     Running   0          3d
") = Some 0.
Proof. vm_compute. reflexivity. Qed.

End WaitExit.

(** ** Plotting the predictions *)

Module PlotFacts.

Import Plot.

Section Cells.

Context {float image : Type}.
Variable argmax : list float → Z.

Lemma predicted_numbers_rows (outputs : list (list float)) :
  Forall (fun x => x ≠ []) outputs →
  predicted_numbers argmax outputs = Return (map argmax outputs).
Proof.
  induction 1 as [|x rest Hx _ IH]; simpl; [done|].
  destruct x; [done|]. simpl. by rewrite IH.
Qed.

Lemma predicted_numbers_empty_row (outputs : list (list float)) :
  Exists (fun x => x = []) outputs →
  predicted_numbers argmax outputs =
  Raise (LibraryError "ValueError: attempt to get argmax of an empty sequence").
Proof.
  induction outputs as [|x rest IH]; intros Hex; [by apply Exists_nil in Hex|].
  simpl. destruct x as [|y x]; [done|]. simpl.
  apply Exists_cons in Hex as [?|Hex]; [done|]. by rewrite IH.
Qed.

(** X12: the two cells from [outputs] on, with ten test images.  When some
    row of the response is empty, [np.argmax] raises and nothing is drawn.
    When no row is empty, the loop draws image [i] and its title
    [Predicted: n], [n] the [argmax] of row [i], on the subplot
    [(i // 5, i % 5)], for each row the response has, up to ten: with ten
    rows or more it ends without exception, with fewer rows it raises
    [IndexError] at the first image that has no row, after having drawn
    that image; no subplot gets two images. *)
Theorem show_predictions_rows (test_images_data : list image)
    (outputs : list (list float)) :
  length test_images_data = 10%nat →
  (Exists (fun x => x = []) outputs →
   show_predictions argmax test_images_data outputs =
     ([], Some (LibraryError "ValueError: attempt to get argmax of an empty sequence"))) ∧
  (Forall (fun x => x ≠ []) outputs →
   ∃ extra e,
     show_predictions argmax test_images_data outputs =
       (flat_map (fun '(i, (img, row)) => turn argmax i img row)
          (zip (seqZ 0 10) (zip test_images_data outputs)) ++ extra, e) ∧
     (if decide (10 ≤ length outputs)%nat
      then extra = [] ∧ e = None
      else ∃ img,
             test_images_data !! length outputs = Some img ∧
             extra = [Imshow (Z.of_nat (length outputs) `div` 5,
                              Z.of_nat (length outputs) `mod` 5) img] ∧
             e = Some IndexError) ∧
     NoDup (subplot <$>
              filter is_imshow (show_predictions argmax test_images_data outputs).1)).
Proof.
  intros Hlen. split.
  { intros Hex. unfold show_predictions.
    by rewrite (predicted_numbers_empty_row _ Hex). }
  intros Hrows. unfold show_predictions.
  rewrite (predicted_numbers_rows _ Hrows). clear Hrows.
  do 11 (destruct test_images_data as [|? test_images_data]; try discriminate).
  clear Hlen.
  do 10 (destruct outputs as [|? outputs];
         [eexists _, _; split; [reflexivity|]; split;
            [eexists; split; [reflexivity|]; split; reflexivity
            |apply (bool_decide_unpack _); vm_compute; exact I]|]).
  exists [], None. split; [reflexivity|].
  split; [|apply (bool_decide_unpack _); vm_compute; exact I].
  rewrite decide_True by (simpl; lia). done.
Qed.

End Cells.

(** A response with three rows only, and one with an empty row. *)
Lemma show_predictions_rows_witness :
  length Samples.test_images = 10%nat ∧
  Forall (fun x => x ≠ []) Samples.short_response ∧
  Exists (fun x => x = []) (Samples.short_response ++ [[]]) ∧
  show_predictions Samples.argmax_Z Samples.test_images Samples.short_response =
    ([Imshow (0, 0) 0%nat; SetTitle (0, 0) "Predicted: 7";
      Imshow (0, 1) 1%nat; SetTitle (0, 1) "Predicted: 2";
      Imshow (0, 2) 2%nat; SetTitle (0, 2) "Predicted: 1";
      Imshow (0, 3) 3%nat],
     Some IndexError) ∧
  show_predictions Samples.argmax_Z Samples.test_images
    (Samples.short_response ++ [[]]) =
    ([], Some (LibraryError "ValueError: attempt to get argmax of an empty sequence")).
Proof.
  assert (Hrows : Forall (fun x : list Z => x ≠ []) Samples.short_response)
    by (repeat constructor; discriminate).
  assert (Hempty : Exists (fun x : list Z => x = [])
                     (Samples.short_response ++ [[]]))
    by (apply Exists_app; right; by constructor).
  split; [reflexivity|]. split; [exact Hrows|]. split; [exact Hempty|].
  split.
  - destruct (proj2 (show_predictions_rows Samples.argmax_Z Samples.test_images
                       Samples.short_response eq_refl) Hrows)
      as (extra & e & Hrun & _).
    rewrite Hrun. vm_compute in Hrun. by injection Hrun as <- <-.
  - exact (proj1 (show_predictions_rows Samples.argmax_Z Samples.test_images
                    (Samples.short_response ++ [[]]) eq_refl) Hempty).
Defined.

End PlotFacts.
